(** * The command interpreter of the terminal portfolio page

    A shallow embedding of [runCommand] from [src/pages/Index.tsx] together
    with the constants it reads ([TABS], [projectsMeta], [fortunes],
    [towelArt]) and the React state it writes ([cwd], [selectedProject],
    [selectedWorkFile], [history]).

    JavaScript strings are sequences of UTF-16 code units, so a string is a
    list of numbers here; the built-ins the interpreter calls
    ([String.prototype.trim], [String.prototype.split] with the pattern
    [/\s+/], [Array.prototype.includes], the [in] operator, template
    literals, [Math.random] and [Math.floor]) are modelled by small
    executable functions. *)

From Stdlib Require Import String Ascii QArith Qround.
From stdpp Require Import base decidable option list.

Local Open Scope list_scope.

(** ** JavaScript strings *)

Module JS.

(** A UTF-16 code unit. *)
Definition char := N.

Definition jsstring := list char.

(** A source literal made of ASCII characters only. *)
Definition lit (s : string) : jsstring :=
  map N_of_ascii (list_ascii_of_string s).

(** The characters both [trim] and the class [\s] treat as blank:
    ECMAScript's WhiteSpace and LineTerminator productions. *)
Definition is_ws (c : char) : bool :=
  ((9 <=? c) && (c <=? 13) ||
   (c =? 32) || (c =? 160) || (c =? 5760) ||
   ((8192 <=? c) && (c <=? 8202)) ||
   (c =? 8232) || (c =? 8233) || (c =? 8239) || (c =? 8287) ||
   (c =? 12288) || (c =? 65279))%N.

Fixpoint trimStart (s : jsstring) : jsstring :=
  match s with
  | [] => []
  | c :: s' => if is_ws c then trimStart s' else s
  end.

Definition trimEnd (s : jsstring) : jsstring :=
  reverse (trimStart (reverse s)).

(** [s.trim()] *)
Definition trim (s : jsstring) : jsstring := trimEnd (trimStart s).

(** Puts a character in front of the piece being read. *)
Definition cons_piece (c : char) (ps : list jsstring) : list jsstring :=
  match ps with
  | [] => [[c]]
  | p :: ps' => (c :: p) :: ps'
  end.

(** [s.split(/\s+/)], read left to right.  [in_run] tells that the
    previous character belonged to a separator that is still being
    matched: the pattern is greedy, so a whole run of blanks is one
    separator.  A separator at the very start or the very end of the
    string leaves an empty piece there, and the empty string splits to
    one empty piece. *)
Fixpoint split_run (in_run : bool) (s : jsstring) : list jsstring :=
  match s with
  | [] => [[]]
  | c :: s' =>
      if is_ws c then
        if in_run then split_run true s' else [] :: split_run true s'
      else cons_piece c (split_run false s')
  end.

Definition split_ws (s : jsstring) : list jsstring := split_run false s.

(** [`${v}`] for a value that is a string or [undefined]. *)
Definition template (v : option jsstring) : jsstring :=
  match v with
  | Some s => s
  | None => lit "undefined"
  end.

(** The names every object inherits from [Object.prototype]. *)
Definition Object_prototype_keys : list jsstring :=
  [ lit "constructor"; lit "hasOwnProperty"; lit "isPrototypeOf";
    lit "propertyIsEnumerable"; lit "toLocaleString"; lit "toString";
    lit "valueOf"; lit "__proto__"; lit "__defineGetter__";
    lit "__defineSetter__"; lit "__lookupGetter__"; lit "__lookupSetter__" ].

(** [k in o] for an object literal [o] given by its own entries, in the
    order they are written: the own keys first, then the prototype. *)
Definition has_property {V : Type} (o : list (jsstring * V)) (k : jsstring) : bool :=
  bool_decide (k ∈ o.*1) || bool_decide (k ∈ Object_prototype_keys).

(** [Math.floor(r * n)] for a draw [r] of [Math.random].  A double is a
    rational number; the product is taken exactly, which is what the
    floating-point product is when [n] is a power of two. *)
Definition floor_scaled (r : Q) (n : nat) : Z :=
  Qfloor (r * inject_Z (Z.of_nat n)).

(** [a[i]] for an integer index: [undefined] outside the array. *)
Definition index {A : Type} (a : list A) (i : Z) : option A :=
  if (i <? 0)%Z then None else a !! Z.to_nat i.

End JS.

Import JS.

(** ** The page's constants *)

Definition TABS : list jsstring :=
  [ lit "terminal"; lit "aboutme"; lit "skills"; lit "workexperience";
    lit "projects"; lit "contactme" ].

Record ProjectMeta := {
  file : jsstring;
  description : jsstring;
  tools : list jsstring;
  github : jsstring
}.

Definition projectsMeta : list (jsstring * ProjectMeta) :=
  [ (lit "sentiment_analysis",
     {| file := lit "sentiment_analysis.py";
        description := lit "Scraped and processed 5,000+ iPhone-14 Flipkart reviews, engineered TF-IDF features, and trained a logistic-regression model (90% accuracy) to label sentiment. Deployed as a Flask web app for real-time insights.";
        tools := [lit "Python"; lit "Flask"; lit "BeautifulSoup"; lit "scikit-learn"];
        github := lit "https://github.com/indraneelperumal/sentiment-analysis" |});
    (lit "airbnb_analysis",
     {| file := lit "airbnb_analysis.py";
        description := lit "Modeled nightly-rate elasticity and occupancy drivers across 10,000+ Airbnb listings using gradient-boosting regression; surfaced revenue-lift scenarios via interactive Matplotlib dashboards.";
        tools := [lit "Python"; lit "Pandas"; lit "Matplotlib"; lit "GradientBoostingRegressor"];
        github := lit "https://github.com/indraneelperumal/airbnb-analysis" |});
    (lit "movie_recommender",
     {| file := lit "movie_recommender.py";
        description := lit "Built a hybrid recommendation system combining content-based methods and collaborative filtering to provide personalized movie suggestions based on user ratings and metadata.";
        tools := [lit "Python"; lit "Pandas"; lit "NumPy"; lit "scikit-learn"];
        github := lit "https://github.com/indraneelperumal/movie-recommender" |}) ].

(** What the type [ProjectKey] lists: the own keys of [projectsMeta]. *)
Definition ProjectKeys : list jsstring := projectsMeta.*1.

(** The three code units the source file holds between a quotation and
    its author. *)
Definition dash : jsstring := [226; 8364; 8220]%N.

Definition fortunes : list jsstring :=
  [ lit "Data is the new oil. " ++ dash ++ lit " Clive Humby";
    lit "In God we trust. All others must bring data. " ++ dash ++ lit " W. Edwards Deming";
    lit "Without big data, you are blind and deaf. " ++ dash ++ lit " Geoffrey Moore";
    lit "Torture the data, and it will confess to anything. " ++ dash ++ lit " Ronald Coase" ].

Definition nl : jsstring := [10%N].
Definition dquote : jsstring := [34%N].
Definition backslash : jsstring := [92%N].

Definition towelArt : jsstring :=
  nl ++
  lit "                              _..----.._" ++ nl ++
  lit "                          _.-'          '-._" ++ nl ++
  lit "                       .-'    .-''" ++ dquote ++ lit "''-.     '-." ++ nl ++
  lit "                     .'     /__________" ++ backslash ++ backslash ++ lit "      '." ++ nl ++
  lit "                    /      |            |       " ++ backslash ++ nl ++
  lit "                   /       |   ASCII    |        " ++ backslash ++ nl ++
  lit "                   |       |    ART!    |        |" ++ nl ++
  lit "                   |       '------------'        |" ++ nl ++
  lit "                   |                              |" ++ nl ++
  lit "                   |                              |" ++ nl ++
  lit "                   '._      TOWEL.BLINKENLIGHTS   |" ++ nl ++
  lit "                      '-._   .-''" ++ dquote ++ lit "''-.        _.-'" ++ nl ++
  lit "                          '-._" ++ backslash ++ backslash ++ lit "______/_..--'" ++ nl.

Definition helpText : jsstring :=
  lit "Commands: ls, cd [aboutme|skills|workexperience|projects|contactme], view <project_key>, fortune, telnet [towel.blinkenlights.nl|me], help".

(** ** The state of the page *)

Record HistoryEntry := {
  cmd : jsstring;
  output : option jsstring
}.

(** The four [useState] cells [runCommand] writes.  [None] is [null]. *)
Record State := {
  cwd : jsstring;
  selectedProject : option jsstring;
  selectedWorkFile : option jsstring;
  history : list HistoryEntry
}.

Definition initialState : State :=
  {| cwd := lit "terminal"; selectedProject := None;
     selectedWorkFile := None; history := [] |}.

Definition setCwd (v : jsstring) (s : State) : State :=
  {| cwd := v; selectedProject := selectedProject s;
     selectedWorkFile := selectedWorkFile s; history := history s |}.

Definition setSelectedProject (v : option jsstring) (s : State) : State :=
  {| cwd := cwd s; selectedProject := v;
     selectedWorkFile := selectedWorkFile s; history := history s |}.

Definition setSelectedWorkFile (v : option jsstring) (s : State) : State :=
  {| cwd := cwd s; selectedProject := selectedProject s;
     selectedWorkFile := v; history := history s |}.

(** [setHistory(h => f h)] *)
Definition setHistory (f : list HistoryEntry → list HistoryEntry) (s : State) : State :=
  {| cwd := cwd s; selectedProject := selectedProject s;
     selectedWorkFile := selectedWorkFile s; history := f (history s) |}.

(** [setHistory(h => [...h, e])] *)
Definition pushHistory (e : HistoryEntry) : State → State :=
  setHistory (λ h, h ++ [e]).

(** ** The interpreter *)

(** [const [base, arg] = cmd.trim().split(/\s+/)]: a missing element is
    [undefined], here [None]. *)
Definition parse (line : jsstring) : option jsstring * option jsstring :=
  let pieces := split_ws (trim line) in
  (pieces !! 0%nat, pieces !! 1%nat).

(** [base === 'view' && arg && arg in projectsMeta], giving the [arg]
    that is then taken [as ProjectKey]. *)
Definition viewTarget (base arg : option jsstring) : option jsstring :=
  if bool_decide (base = Some (lit "view")) then
    match arg with
    | Some a =>
        if bool_decide (a ≠ []) && has_property projectsMeta a then Some a else None
    | None => None
    end
  else None.

(** [(TABS as readonly string[]).includes(arg)], giving the [arg] that is
    then taken [as TabType]. *)
Definition tabTarget (arg : option jsstring) : option jsstring :=
  match arg with
  | Some a => if bool_decide (a ∈ TABS) then Some a else None
  | None => None
  end.

(** The [switch (base)] statement: the state after its setters ran, and
    the local [output].  [rnd] is what [Math.random()] returns if it is
    called. *)
Definition dispatch (rnd : Q) (base arg : option jsstring) (s : State)
  : State * option jsstring :=
  if bool_decide (base = Some (lit "ls")) then (s, None)
  else if bool_decide (base = Some (lit "cd")) then
    match tabTarget arg with
    | Some tab =>
        (setSelectedWorkFile None (setSelectedProject None (setCwd tab s)), None)
    | None =>
        (s, Some (lit "zsh: no such file or directory: " ++ template arg))
    end
  else if bool_decide (base = Some (lit "help")) then (s, Some helpText)
  else if bool_decide (base = Some (lit "fortune")) then
    (s, index fortunes (floor_scaled rnd (length fortunes)))
  else if bool_decide (base = Some (lit "telnet")) then
    if bool_decide (arg = Some (lit "towel.blinkenlights.nl")) then
      (s, Some towelArt)
    else if bool_decide (arg = Some (lit "me")) then
      (setSelectedWorkFile None (setSelectedProject None (setCwd (lit "contactme") s)), None)
    else
      (s, Some (lit "zsh: could not connect to host: " ++ template arg))
  else (s, Some (lit "zsh: command not found: " ++ template base)).

Definition runCommand (rnd : Q) (line : jsstring) (s : State) : State :=
  let '(base, arg) := parse line in
  match viewTarget base arg with
  | Some key =>
      pushHistory {| cmd := line; output := None |}
        (setSelectedProject (Some key) s)
  | None =>
      let '(s', out) := dispatch rnd base arg s in
      pushHistory {| cmd := line; output := out |} s'
  end.

(** Running a whole session: one draw and one line per submission. *)
Definition runSession (inputs : list (Q * jsstring)) (s : State) : State :=
  foldl (λ st i, runCommand i.1 i.2 st) s inputs.

(** ** Shapes of input lines *)

(** Only blank characters (the empty line too). *)
Definition blank (s : jsstring) : Prop := forallb is_ws s = true.

(** At least one character, none of them blank: what [split_ws] can
    return as [base] or [arg] of a trimmed line. *)
Definition word (s : jsstring) : Prop :=
  s ≠ [] ∧ forallb (λ c, negb (is_ws c)) s = true.

(** Nothing, or something that begins with a blank. *)
Definition boundary (s : jsstring) : Prop :=
  match s with
  | [] => True
  | c :: _ => is_ws c = true
  end.

(** The line begins (after optional blanks) with the word [v], which
    ends there. *)
Definition starts_with (v line : jsstring) : Prop :=
  ∃ pre rest, line = pre ++ v ++ rest ∧ blank pre ∧ boundary rest.

(** The verbs [runCommand] compares [base] with: the guard in front of
    the [switch] and its [case] labels. *)
Definition verbs : list jsstring :=
  [ lit "view"; lit "ls"; lit "cd"; lit "help"; lit "fortune"; lit "telnet" ].

(** Puts a whole word in front of the first piece. *)
Definition prepend (w : jsstring) (ps : list jsstring) : list jsstring :=
  match ps with
  | [] => [w]
  | p :: ps' => (w ++ p) :: ps'
  end.

(** The three cells that make up the navigation state. *)
Definition nav (s : State) : jsstring * option jsstring * option jsstring :=
  (cwd s, selectedProject s, selectedWorkFile s).

(** ** Titles *)

(** [s.replace(/\s+/g, '')]: every run of blanks is taken out. *)
Definition strip_ws (s : jsstring) : jsstring :=
  List.filter (λ c, negb (is_ws c)) s.

(** The three code units the source file holds where the titles have a
    long dash. *)
Definition longdash : jsstring := [226; 8364; 8221]%N.

(** The label of a tab. *)
Definition prefixTitle (type : jsstring) : jsstring :=
  if bool_decide (type = lit "terminal") then
    lit "~ " ++ longdash ++ lit " -zsh"
  else lit "~/" ++ strip_ws type ++ lit " " ++ longdash ++ lit " -zsh".

(** The title of the window, from the section shown. *)
Definition topBarTitle (s : State) : jsstring :=
  if bool_decide (cwd s = lit "terminal") then
    lit "~ indraneelperumal " ++ longdash ++ lit " -zsh"
  else lit "~/" ++ cwd s ++ lit " " ++ longdash ++ lit " -zsh".

(** ** What the panels compute *)

(** [o[k]] for a key the object literal [o] owns. *)
Fixpoint get_own {V : Type} (o : list (jsstring * V)) (k : jsstring) : option V :=
  match o with
  | [] => None
  | (k', v) :: o' => if bool_decide (k' = k) then Some v else get_own o' k
  end.

(** [v && ...] for a value that is a string or [null]: the empty string
    counts as absent. *)
Definition truthy (v : option jsstring) : option jsstring :=
  match v with
  | Some (c :: s) => Some (c :: s)
  | _ => None
  end.

(** [l.join(sep)] *)
Fixpoint join (sep : jsstring) (l : list jsstring) : jsstring :=
  match l with
  | [] => []
  | [x] => x
  | x :: l' => x ++ sep ++ join sep l'
  end.

(** [s.replace(/\n/g, '\n    ')] *)
Definition indent_lines (s : jsstring) : jsstring :=
  flat_map (λ c, if (c =? 10)%N then nl ++ lit "    " else [c]) s.

(** The files listed in the work experience panel. *)
Definition files : list jsstring :=
  [ lit "saasguru.sql"; lit "optimal_strategix_group.sql"; lit "capgemini.sql" ].

Record WorkRecord := {
  company : jsstring;
  role : jsstring;
  date : jsstring;
  resp : jsstring
}.

Definition workData : list (jsstring * WorkRecord) :=
  [ (lit "saasguru.sql",
     {| company := lit "Saasguru";
        role := lit "Growth Analyst Intern";
        date := lit "Dec 2023" ++ dash ++ lit "Jun 2024";
        resp := lit "Google Analytics, SQL, +20% engagement" |});
    (lit "optimal_strategix_group.sql",
     {| company := lit "Optimal Strategix Group";
        role := lit "Marketing Analyst Intern";
        date := lit "Feb 2023" ++ dash ++ lit "May 2023";
        resp := lit "Tableau dashboards, Python analysis, +15% social reach" |});
    (lit "capgemini.sql",
     {| company := lit "Capgemini";
        role := lit "Data Analyst Intern";
        date := lit "Jul 2022" ++ dash ++ lit "Sep 2022";
        resp := lit "Dynamic client DB, Excel macros, " ++ dash ++ lit "15% manual labor" |}) ].

(** The text of the block shown for a selected project, and the link
    under it.  [None] stands for the TypeError the template raises when
    [projectsMeta] does not own the key: [projectsMeta[k]] is then
    [undefined], or an inherited value that has no [description] for
    [replace] to be called on. *)
Definition projectDetail (k : jsstring) : option (jsstring * jsstring) :=
  match get_own projectsMeta k with
  | Some m =>
      Some (lit "# " ++ file m ++ nl ++
            nl ++
            dquote ++ dquote ++ dquote ++ nl ++
            lit "Description:" ++ nl ++
            lit "    " ++ indent_lines (description m) ++ nl ++
            nl ++
            lit "Tools:" ++ nl ++
            join nl (map (λ t, lit "    - " ++ t) (tools m)) ++ nl ++
            dquote ++ dquote ++ dquote,
            github m)
  | None => None
  end.

(** The query shown for a selected work file. *)
Definition workQuery (f : jsstring) : jsstring :=
  lit "SELECT Company, JobRole, Date, Responsibilities" ++ nl ++
  lit "  FROM WorkExperience" ++ nl ++
  lit " WHERE FileName = '" ++ f ++ lit "';".

(** The four cells of the table under the query; a cell is [None] when
    the value read is [undefined], which is what an inherited name gives.
    The row is [None] for the TypeError raised when [workData[f]] itself
    is [undefined]. *)
Definition workRow (f : jsstring)
  : option (option jsstring * option jsstring * option jsstring * option jsstring) :=
  match get_own workData f with
  | Some r => Some (Some (company r), Some (role r), Some (date r), Some (resp r))
  | None =>
      if bool_decide (f ∈ Object_prototype_keys) then Some (None, None, None, None)
      else None
  end.

(** What [renderContent] computes from the state; the fixed markup and
    the fixed texts around it are left out. *)
Inductive Panel :=
  | TerminalPanel (blocks : list (jsstring * option jsstring))
  | AboutPanel
  | SkillsPanel
  | WorkPanel (buttons : list jsstring)
      (detail : option (jsstring *
         (option jsstring * option jsstring * option jsstring * option jsstring)))
  | ProjectsPanel (buttons : list (jsstring * option jsstring))
      (detail : option (jsstring * jsstring))
  | ContactPanel
  | NoPanel.

(** One block of the scrollback: the line after the prompt, and the
    output when [h.output &&] lets it through. *)
Definition historyBlock (h : HistoryEntry) : jsstring * option jsstring :=
  (cmd h, truthy (output h)).

(** [renderContent()].  [None] stands for a TypeError raised while the
    panel is built. *)
Definition renderContent (s : State) : option Panel :=
  if bool_decide (cwd s = lit "terminal") then
    Some (TerminalPanel (map historyBlock (history s)))
  else if bool_decide (cwd s = lit "aboutme") then Some AboutPanel
  else if bool_decide (cwd s = lit "skills") then Some SkillsPanel
  else if bool_decide (cwd s = lit "workexperience") then
    match truthy (selectedWorkFile s) with
    | Some f =>
        match workRow f with
        | Some row => Some (WorkPanel files (Some (workQuery f, row)))
        | None => None
        end
    | None => Some (WorkPanel files None)
    end
  else if bool_decide (cwd s = lit "projects") then
    let buttons := map (λ k, (k, file <$> get_own projectsMeta k)) ProjectKeys in
    match truthy (selectedProject s) with
    | Some k =>
        match projectDetail k with
        | Some d => Some (ProjectsPanel buttons (Some d))
        | None => None
        end
    | None => Some (ProjectsPanel buttons None)
    end
  else if bool_decide (cwd s = lit "contactme") then Some ContactPanel
  else Some NoPanel.

(** ** The page and its events *)

(** The state of the page with the two cells [runCommand] does not
    write: the content of the input box and the theme. *)
Record Page := {
  state : State;
  command : jsstring;
  isDarkTheme : bool
}.

Definition initialPage : Page :=
  {| state := initialState; command := []; isDarkTheme := true |}.

Definition withState (f : State → State) (p : Page) : Page :=
  {| state := f (state p); command := command p; isDarkTheme := isDarkTheme p |}.

(** What the user can do.  [KeyDown] carries the key and the draw
    [Math.random()] makes if the command run calls it. *)
Inductive Event :=
  | InputChange (value : jsstring)
  | KeyDown (key : jsstring) (rnd : Q)
  | SelectChange (value : jsstring)
  | TabClick (t : jsstring)
  | PlusClick
  | ThemeClick
  | ProjectClick (k : jsstring)
  | WorkFileClick (f : jsstring).

(** The tab handlers: [setCwd(x); setSelectedProject(null);
    setSelectedWorkFile(null)]. *)
Definition openTab (x : jsstring) (s : State) : State :=
  setSelectedWorkFile None (setSelectedProject None (setCwd x s)).

(** [onKeyDown] *)
Definition onKeyDown (key : jsstring) (rnd : Q) (p : Page) : Page :=
  if bool_decide (key = lit "Enter") then
    {| state := runCommand rnd (command p) (state p);
       command := [];
       isDarkTheme := isDarkTheme p |}
  else p.

(** The handler of each event. *)
Definition handle (e : Event) (p : Page) : Page :=
  match e with
  | InputChange v =>
      {| state := state p; command := v; isDarkTheme := isDarkTheme p |}
  | KeyDown key rnd => onKeyDown key rnd p
  | SelectChange v => withState (openTab v) p
  | TabClick t => withState (openTab t) p
  | PlusClick => withState (setCwd (lit "terminal")) p
  | ThemeClick =>
      {| state := state p; command := command p;
         isDarkTheme := negb (isDarkTheme p) |}
  | ProjectClick k => withState (setSelectedProject (Some k)) p
  | WorkFileClick f => withState (setSelectedWorkFile (Some f)) p
  end.

(** Whether the element that raises the event is on the page: the input
    box is rendered in the terminal section only, a project button for
    each key of [projectsMeta] in the projects section, a file button for
    each of [files] in the work experience section; a tab and an option
    of the selector for each of [TABS], and the two other buttons,
    always. *)
Definition enabled (e : Event) (p : Page) : bool :=
  match e with
  | InputChange _ | KeyDown _ _ => bool_decide (cwd (state p) = lit "terminal")
  | SelectChange v => bool_decide (v ∈ TABS)
  | TabClick t => bool_decide (t ∈ TABS)
  | PlusClick | ThemeClick => true
  | ProjectClick k =>
      bool_decide (cwd (state p) = lit "projects") && bool_decide (k ∈ ProjectKeys)
  | WorkFileClick f =>
      bool_decide (cwd (state p) = lit "workexperience") && bool_decide (f ∈ files)
  end.

(** A run of events, each raised by an element that is on the page when
    its turn comes; [None] if one is not. *)
Fixpoint playEvents (es : list Event) (p : Page) : option Page :=
  match es with
  | [] => Some p
  | e :: es' => if enabled e p then playEvents es' (handle e p) else None
  end.

Definition isProjectClick (e : Event) : bool :=
  match e with
  | ProjectClick _ => true
  | _ => false
  end.

Definition isSubmit (e : Event) : bool :=
  match e with
  | KeyDown key _ => bool_decide (key = lit "Enter")
  | _ => false
  end.

(** What the panels rely on: the section is one of [TABS], a project
    selected while the projects section is shown is a key of
    [projectsMeta], and a selected work file is one of [files]. *)
Definition wellFormed (s : State) : Prop :=
  cwd s ∈ TABS ∧
  (cwd s = lit "projects" →
   ∀ k, selectedProject s = Some k → k ∈ ProjectKeys) ∧
  (∀ f, selectedWorkFile s = Some f → f ∈ files).

(** ** Trimming *)

Section Trim.

Implicit Types (s w : jsstring) (c : char).

Lemma trimStart_blank s : blank s → trimStart s = [].
Proof.
  unfold blank. induction s as [|c s IH]; simpl; [done|].
  intros [Hc Hs]%andb_true_iff. rewrite Hc. auto.
Qed.

Lemma trimStart_blank_app s t : blank s → trimStart (s ++ t) = trimStart t.
Proof.
  unfold blank. induction s as [|c s IH]; simpl; [done|].
  intros [Hc Hs]%andb_true_iff. rewrite Hc. auto.
Qed.

Lemma trimStart_word_app w t : word w → trimStart (w ++ t) = w ++ t.
Proof.
  intros [Hne Hw]. destruct w as [|c w]; [done|]. simpl in *.
  apply andb_true_iff in Hw as [Hc _].
  apply negb_true_iff in Hc. by rewrite Hc.
Qed.

Lemma trimEnd_nil : trimEnd [] = [].
Proof. reflexivity. Qed.

Lemma trimEnd_snoc s c :
  trimEnd (s ++ [c]) = if is_ws c then trimEnd s else s ++ [c].
Proof.
  unfold trimEnd. rewrite reverse_snoc. simpl.
  destruct (is_ws c); [done|].
  by rewrite reverse_cons, reverse_involutive.
Qed.

Lemma trimEnd_blank s : blank s → trimEnd s = [].
Proof.
  unfold blank. induction s as [|c s IH] using rev_ind; [done|].
  rewrite forallb_app. simpl.
  intros [Hs [Hc _]%andb_true_iff]%andb_true_iff.
  rewrite trimEnd_snoc, Hc. auto.
Qed.

Lemma trimEnd_prefix s : trimEnd s `prefix_of` s.
Proof.
  induction s as [|c s IH] using rev_ind; [done|].
  rewrite trimEnd_snoc. destruct (is_ws c); [|done].
  by apply prefix_app_r.
Qed.

Lemma word_last w : word w → ∃ w' c, w = w' ++ [c] ∧ is_ws c = false.
Proof.
  intros [Hne Hw]. destruct w as [|c w _] using rev_ind; [done|].
  exists w, c. split; [done|].
  rewrite forallb_app in Hw. simpl in Hw.
  apply andb_true_iff in Hw as [_ [Hc _]%andb_true_iff].
  by apply negb_true_iff.
Qed.

Lemma trimEnd_app_word s w : word w → trimEnd (s ++ w) = s ++ w.
Proof.
  intros (w' & c & -> & Hc)%word_last.
  by rewrite app_assoc, trimEnd_snoc, Hc.
Qed.

Lemma trimEnd_word_app w t : word w → trimEnd (w ++ t) = w ++ trimEnd t.
Proof.
  intros Hw. induction t as [|c t IH] using rev_ind.
  - rewrite app_nil_r, trimEnd_nil, app_nil_r.
    by apply (trimEnd_app_word []).
  - rewrite app_assoc, !trimEnd_snoc, IH.
    destruct (is_ws c); [done|]. by rewrite app_assoc.
Qed.

Lemma boundary_trimEnd s : boundary s → boundary (trimEnd s).
Proof.
  intros Hs. destruct (trimEnd_prefix s) as [k Hk].
  destruct (trimEnd s) as [|c t]; [done|].
  rewrite Hk in Hs. exact Hs.
Qed.

Lemma trim_blank s : blank s → trim s = [].
Proof. intros Hs. unfold trim. by rewrite trimStart_blank. Qed.

(** A line that begins with a word and ends with a word is not
    changed. *)
Lemma trim_between_words w1 s w2 :
  word w1 → word w2 → trim (w1 ++ s ++ w2) = w1 ++ s ++ w2.
Proof.
  intros H1 H2. unfold trim. rewrite trimStart_word_app by done.
  by rewrite app_assoc, trimEnd_app_word, <- app_assoc.
Qed.

Lemma trim_word w : word w → trim w = w.
Proof.
  intros Hw. unfold trim.
  rewrite <- (app_nil_r w) at 1. rewrite trimStart_word_app by done.
  rewrite app_nil_r. by apply (trimEnd_app_word []).
Qed.

Lemma trim_starts_with pre w rest :
  blank pre → word w → trim (pre ++ w ++ rest) = w ++ trimEnd rest.
Proof.
  intros Hp Hw. unfold trim.
  rewrite trimStart_blank_app, trimStart_word_app by done.
  by apply trimEnd_word_app.
Qed.

End Trim.

(** ** Splitting and parsing *)

Section Split.

Implicit Types (s w v x : jsstring) (c : char).

Lemma cons_piece_prepend c w ps :
  cons_piece c (prepend w ps) = prepend (c :: w) ps.
Proof. by destruct ps. Qed.

(** Reading a word moves it, whole, in front of the pieces of what
    follows, whether or not a separator was being read. *)
Lemma split_run_word_app b w t :
  word w → split_run b (w ++ t) = prepend w (split_run false t).
Proof.
  intros [Hne Hw]. revert b. induction w as [|c w IH]; intros b; [done|].
  simpl in Hw. apply andb_true_iff in Hw as [Hc Hw].
  apply negb_true_iff in Hc. simpl. rewrite Hc.
  destruct w as [|c' w].
  - simpl. by destruct (split_run false t).
  - rewrite IH by done. apply cons_piece_prepend.
Qed.

Lemma split_run_boundary t :
  boundary t → ∃ ps, split_run false t = [] :: ps.
Proof.
  destruct t as [|c t]; simpl; [by exists []|].
  intros ->. by eexists.
Qed.

Lemma split_ws_nil : split_ws [] = [[]].
Proof. reflexivity. Qed.

Lemma split_ws_word w : word w → split_ws w = [w].
Proof.
  intros Hw. unfold split_ws. rewrite <- (app_nil_r w) at 1.
  rewrite split_run_word_app by done. simpl. by rewrite app_nil_r.
Qed.

Lemma split_ws_two_words v x :
  word v → word x → split_ws (v ++ lit " " ++ x) = [v; x].
Proof.
  intros Hv Hx. unfold split_ws. rewrite split_run_word_app by done.
  change (lit " " ++ x) with (32%N :: x). simpl.
  rewrite <- (app_nil_r x) at 1. rewrite split_run_word_app by done.
  simpl. by rewrite !app_nil_r.
Qed.

Lemma split_ws_starts_with w t :
  word w → boundary t → ∃ ps, split_ws (w ++ t) = w :: ps.
Proof.
  intros Hw [ps Hps]%split_run_boundary. exists ps.
  unfold split_ws. rewrite split_run_word_app by done.
  rewrite Hps. simpl. by rewrite app_nil_r.
Qed.

Lemma parse_blank s : blank s → parse s = (Some [], None).
Proof. intros Hs. unfold parse. by rewrite trim_blank. Qed.

Lemma parse_word w : word w → parse w = (Some w, None).
Proof.
  intros Hw. unfold parse. by rewrite trim_word, split_ws_word.
Qed.

Lemma parse_two_words v x :
  word v → word x → parse (v ++ lit " " ++ x) = (Some v, Some x).
Proof.
  intros Hv Hx. unfold parse.
  by rewrite trim_between_words, split_ws_two_words.
Qed.

Lemma parse_starts_with v line :
  word v → starts_with v line → (parse line).1 = Some v.
Proof.
  intros Hv (pre & rest & -> & Hpre & Hrest). unfold parse.
  rewrite trim_starts_with by done.
  destruct (split_ws_starts_with v (trimEnd rest)) as [ps ->];
    [done|by apply boundary_trimEnd|done].
Qed.

(** The words of the source text are words. *)
Lemma word_lit_cd : word (lit "cd").
Proof. by split. Qed.

Lemma word_lit_view : word (lit "view").
Proof. by split. Qed.

Lemma word_TABS x : x ∈ TABS → word x.
Proof.
  unfold TABS. rewrite !elem_of_cons, elem_of_nil.
  intros H. repeat destruct H as [->|H]; by try split.
Qed.

Lemma word_ProjectKeys x : x ∈ ProjectKeys → word x.
Proof.
  unfold ProjectKeys, projectsMeta. simpl.
  rewrite !elem_of_cons, elem_of_nil.
  intros H. repeat destruct H as [->|H]; by try split.
Qed.

End Split.

(** ** One submission, step by step *)

Section Steps.

Implicit Types (s : State) (line x : jsstring) (rnd : Q).
Implicit Types (base arg : option jsstring) (e : HistoryEntry).

Lemma nav_pushHistory e s : nav (pushHistory e s) = nav s.
Proof. reflexivity. Qed.

Lemma history_pushHistory e s : history (pushHistory e s) = history s ++ [e].
Proof. reflexivity. Qed.

Lemma runCommand_parsed rnd line s base arg :
  parse line = (base, arg) →
  runCommand rnd line s =
    match viewTarget base arg with
    | Some key =>
        pushHistory {| cmd := line; output := None |}
          (setSelectedProject (Some key) s)
    | None =>
        pushHistory {| cmd := line; output := (dispatch rnd base arg s).2 |}
          (dispatch rnd base arg s).1
    end.
Proof.
  intros Hp. unfold runCommand. rewrite Hp.
  destruct (viewTarget base arg); [done|]. by destruct (dispatch rnd base arg s).
Qed.

Lemma viewTarget_other base arg :
  base ≠ Some (lit "view") → viewTarget base arg = None.
Proof. intros H. unfold viewTarget. by rewrite bool_decide_eq_false_2. Qed.

Lemma viewTarget_undefined base : viewTarget base None = None.
Proof. unfold viewTarget. by case_bool_decide. Qed.

Lemma viewTarget_known x :
  x ∈ ProjectKeys → viewTarget (Some (lit "view")) (Some x) = Some x.
Proof.
  intros Hx. unfold viewTarget, has_property.
  rewrite bool_decide_eq_true_2 by done.
  rewrite (bool_decide_eq_true_2 (x ≠ [])) by (apply word_ProjectKeys, Hx).
  by rewrite (bool_decide_eq_true_2 (x ∈ projectsMeta.*1)).
Qed.

Lemma viewTarget_unknown x :
  x ∉ ProjectKeys → x ∉ Object_prototype_keys →
  viewTarget (Some (lit "view")) (Some x) = None.
Proof.
  intros Hx Hp. unfold viewTarget, has_property.
  rewrite bool_decide_eq_true_2 by done.
  rewrite (bool_decide_eq_false_2 (x ∈ projectsMeta.*1)) by done.
  rewrite (bool_decide_eq_false_2 (x ∈ Object_prototype_keys)) by done.
  by rewrite andb_false_r.
Qed.

Lemma tabTarget_known x : x ∈ TABS → tabTarget (Some x) = Some x.
Proof. intros Hx. unfold tabTarget. by rewrite bool_decide_eq_true_2. Qed.

Lemma tabTarget_unknown x : x ∉ TABS → tabTarget (Some x) = None.
Proof. intros Hx. unfold tabTarget. by rewrite bool_decide_eq_false_2. Qed.

Lemma dispatch_cd rnd arg s :
  dispatch rnd (Some (lit "cd")) arg s =
    match tabTarget arg with
    | Some tab =>
        (setSelectedWorkFile None (setSelectedProject None (setCwd tab s)), None)
    | None => (s, Some (lit "zsh: no such file or directory: " ++ template arg))
    end.
Proof. reflexivity. Qed.

Lemma dispatch_view rnd arg s :
  dispatch rnd (Some (lit "view")) arg s =
    (s, Some (lit "zsh: command not found: view")).
Proof. reflexivity. Qed.

Lemma dispatch_fortune rnd arg s :
  dispatch rnd (Some (lit "fortune")) arg s =
    (s, index fortunes (floor_scaled rnd (length fortunes))).
Proof. reflexivity. Qed.

Lemma dispatch_unknown rnd x arg s :
  x ∉ verbs →
  dispatch rnd (Some x) arg s = (s, Some (lit "zsh: command not found: " ++ x)).
Proof.
  unfold verbs. rewrite !not_elem_of_cons.
  intros (_ & Hls & Hcd & Hhelp & Hfortune & Htelnet & _).
  unfold dispatch.
  by rewrite !bool_decide_eq_false_2 by (intros [= ?]; done).
Qed.

(** No branch of the [switch] touches the scrollback. *)
Lemma dispatch_history rnd base arg s :
  history (dispatch rnd base arg s).1 = history s.
Proof.
  unfold dispatch.
  repeat case_bool_decide; try done. by destruct (tabTarget arg).
Qed.

Lemma floor_scaled_range rnd :
  (0 <= rnd)%Q → (rnd < 1)%Q →
  (0 ≤ floor_scaled rnd (length fortunes) < Z.of_nat (length fortunes))%Z.
Proof.
  intros H0 H1. unfold floor_scaled.
  change (inject_Z (Z.of_nat (length fortunes))) with (inject_Z 4).
  change (Z.of_nat (length fortunes)) with 4%Z.
  split.
  - change 0%Z with (Qfloor 0). apply Qfloor_resp_le.
    apply Qmult_le_0_compat; [done|]. by apply Qle_bool_imp_le.
  - rewrite Zlt_Qlt. eapply Qle_lt_trans; [apply Qfloor_le|].
    change (inject_Z 4) with (1 * inject_Z 4)%Q at 2.
    by apply Qmult_lt_compat_r.
Qed.

Lemma index_fortunes_range z :
  (0 ≤ z < Z.of_nat (length fortunes))%Z →
  ∃ q, q ∈ fortunes ∧ index fortunes z = Some q.
Proof.
  change (Z.of_nat (length fortunes)) with 4%Z. intros Hz.
  assert (z = 0 ∨ z = 1 ∨ z = 2 ∨ z = 3)%Z as Hcases by lia.
  unfold fortunes at 1.
  destruct Hcases as [-> | [-> | [-> | ->]]]; eexists; (split; [|reflexivity]);
    rewrite !elem_of_cons; tauto.
Qed.

(** Whatever the line, the scrollback grows by one entry that records
    the line as it was typed. *)
Lemma runCommand_history rnd line s :
  ∃ out,
    history (runCommand rnd line s) =
      history s ++ [{| cmd := line; output := out |}].
Proof.
  destruct (parse line) as [base arg] eqn:Hp.
  rewrite (runCommand_parsed _ _ _ _ _ Hp).
  destruct (viewTarget base arg) as [key|].
  - by exists None.
  - exists (dispatch rnd base arg s).2.
    by rewrite history_pushHistory, dispatch_history.
Qed.

(** The section shown is always one of [TABS]. *)
Lemma runCommand_cwd_TABS rnd line s :
  cwd s ∈ TABS → cwd (runCommand rnd line s) ∈ TABS.
Proof.
  intros Hs. destruct (parse line) as [base arg] eqn:Hp.
  rewrite (runCommand_parsed _ _ _ _ _ Hp).
  destruct (viewTarget base arg) as [key|]; [done|]. simpl.
  unfold dispatch. repeat case_bool_decide; try done.
  - destruct arg as [a|]; simpl; [|done]. by case_bool_decide.
  - simpl. unfold TABS. rewrite !elem_of_cons. tauto.
Qed.

Lemma runSession_history inputs s :
  cmd <$> history (runSession inputs s) = (cmd <$> history s) ++ inputs.*2.
Proof.
  revert s. induction inputs as [|[rnd line] inputs IH]; intros s; simpl.
  - by rewrite app_nil_r.
  - unfold runSession in *. simpl. rewrite IH.
    destruct (runCommand_history rnd line s) as [out ->].
    by rewrite fmap_app, <- app_assoc.
Qed.

Lemma runSession_prefix inputs s :
  history s `prefix_of` history (runSession inputs s).
Proof.
  revert s. induction inputs as [|[rnd line] inputs IH]; intros s; [done|].
  unfold runSession in *. simpl. etrans; [|apply IH].
  destruct (runCommand_history rnd line s) as [out ->].
  by apply prefix_app_r.
Qed.

End Steps.

(** ** What the interpreter does on each kind of line *)

(** C1, as the code has it.  A line made of blank characters only (the
    empty line too) leaves the navigation state alone and appends one
    entry; its output is not absent: the line trims to the empty string,
    which splits to one empty piece, and the [default] branch reports the
    empty verb with the text "zsh: command not found: ". *)
Theorem runCommand_blank rnd line s :
  blank line →
  nav (runCommand rnd line s) = nav s ∧
  history (runCommand rnd line s) =
    history s ++
      [{| cmd := line; output := Some (lit "zsh: command not found: ") |}].
Proof.
  intros Hb. by rewrite (runCommand_parsed _ _ _ _ _ (parse_blank _ Hb)).
Qed.

Lemma runCommand_blank_witness :
  blank (lit "   ") ∧
  nav (runCommand 0 (lit "   ") initialState) = nav initialState ∧
  history (runCommand 0 (lit "   ") initialState) =
    [{| cmd := lit "   "; output := Some (lit "zsh: command not found: ") |}].
Proof.
  split; [reflexivity|].
  apply (runCommand_blank 0 (lit "   ") initialState). reflexivity.
Defined.

(** C1 fails as stated: three spaces are a blank line, and the entry
    appended for them carries an output. *)
Lemma runCommand_blank_counterexample :
  blank (lit "   ") ∧
  ¬ ∃ e, history (runCommand 0 (lit "   ") initialState) =
           history initialState ++ [e] ∧
         output e = None.
Proof.
  split; [reflexivity|]. intros (e & He & Hout).
  vm_compute in He. injection He as <-. discriminate Hout.
Qed.

(** C2.  Whatever the scrollback and whatever the line (so for every line
    that is not empty), one submission appends exactly one entry, at the
    end, that records the line as typed; the entries that were there stay
    where they were, unchanged. *)
Theorem runCommand_appends_one_entry rnd line s :
  ∃ out,
    history (runCommand rnd line s) =
      history s ++ [{| cmd := line; output := out |}] ∧
    length (history (runCommand rnd line s)) = S (length (history s)) ∧
    take (length (history s)) (history (runCommand rnd line s)) = history s.
Proof.
  destruct (runCommand_history rnd line s) as [out Hout].
  exists out. rewrite Hout. split; [done|]. split.
  - rewrite length_app. simpl. lia.
  - by rewrite take_app_length.
Qed.

(** C3.  For a section name [x] of [TABS] and any state, the line
    [cd x] makes [x] the current section, empties both selections (also
    when [x] is the section shown already) and leaves no output. *)
Theorem runCommand_cd_section rnd x s :
  x ∈ TABS →
  cwd (runCommand rnd (lit "cd " ++ x) s) = x ∧
  selectedProject (runCommand rnd (lit "cd " ++ x) s) = None ∧
  selectedWorkFile (runCommand rnd (lit "cd " ++ x) s) = None ∧
  history (runCommand rnd (lit "cd " ++ x) s) =
    history s ++ [{| cmd := lit "cd " ++ x; output := None |}].
Proof.
  intros Hx.
  assert (parse (lit "cd " ++ x) = (Some (lit "cd"), Some x)) as Hp
    by (apply (parse_two_words (lit "cd") x word_lit_cd), word_TABS, Hx).
  rewrite (runCommand_parsed _ _ _ _ _ Hp).
  rewrite viewTarget_other by done.
  by rewrite dispatch_cd, tabTarget_known.
Qed.

Lemma runCommand_cd_section_witness :
  lit "projects" ∈ TABS ∧
  let s := {| cwd := lit "projects";
              selectedProject := Some (lit "airbnb_analysis");
              selectedWorkFile := Some (lit "capgemini.sql");
              history := [] |} in
  cwd (runCommand 0 (lit "cd projects") s) = lit "projects" ∧
  selectedProject (runCommand 0 (lit "cd projects") s) = None ∧
  selectedWorkFile (runCommand 0 (lit "cd projects") s) = None ∧
  history (runCommand 0 (lit "cd projects") s) =
    [{| cmd := lit "cd projects"; output := None |}].
Proof.
  assert (lit "projects" ∈ TABS) as Hx
    by (apply (bool_decide_unpack _); vm_compute; exact I).
  split; [exact Hx|].
  exact (runCommand_cd_section 0 (lit "projects") _ Hx).
Defined.

(** C4, as the code has it.  For the line [view] alone, and for [view k]
    where the word [k] is neither a key of [projectsMeta] nor a name the
    registry object inherits, the navigation state stays as it is and one
    entry is appended; its output is the [default] branch's text for the
    verb, "zsh: command not found: view", since the [switch] has no case
    for [view]. *)
Theorem runCommand_view_unknown rnd line s :
  (line = lit "view" ∨
   ∃ k, line = lit "view " ++ k ∧ word k ∧
        (k ∉ ProjectKeys) ∧ (k ∉ Object_prototype_keys)) →
  nav (runCommand rnd line s) = nav s ∧
  history (runCommand rnd line s) =
    history s ++
      [{| cmd := line; output := Some (lit "zsh: command not found: view") |}].
Proof.
  intros [->|(k & -> & Hk & Hown & Hproto)].
  - by rewrite (runCommand_parsed _ _ _ _ _ (parse_word _ word_lit_view)).
  - rewrite (runCommand_parsed _ _ _ _ _
               (parse_two_words (lit "view") k word_lit_view Hk)).
    by rewrite viewTarget_unknown, dispatch_view.
Qed.

Lemma runCommand_view_unknown_witness :
  nav (runCommand 0 (lit "view foo") initialState) = nav initialState ∧
  history (runCommand 0 (lit "view foo") initialState) =
    [{| cmd := lit "view foo";
        output := Some (lit "zsh: command not found: view") |}].
Proof.
  apply (runCommand_view_unknown 0 (lit "view foo") initialState).
  right. exists (lit "foo").
  split; [reflexivity|]. split; [by split|].
  split; apply (bool_decide_unpack _); vm_compute; exact I.
Defined.

(** C4 fails as stated: [foo] is not a key of the registry, and the entry
    appended for [view foo] carries an error line. *)
Lemma runCommand_view_unknown_counterexample :
  (lit "foo" ∉ ProjectKeys) ∧
  ¬ ∃ e, history (runCommand 0 (lit "view foo") initialState) =
           history initialState ++ [e] ∧
         output e = None.
Proof.
  split; [apply (bool_decide_unpack _); vm_compute; exact I|].
  intros (e & He & Hout).
  vm_compute in He. injection He as <-. discriminate Hout.
Qed.

(** A name inherited from [Object.prototype] passes the [in] test of the
    guard, so [view toString] selects it as if it were a project. *)
Example runCommand_view_inherited_name :
  (lit "toString" ∉ ProjectKeys) ∧
  runCommand 0 (lit "view toString") initialState =
    {| cwd := lit "terminal"; selectedProject := Some (lit "toString");
       selectedWorkFile := None;
       history := [{| cmd := lit "view toString"; output := None |}] |}.
Proof.
  split; [apply (bool_decide_unpack _); vm_compute; exact I|reflexivity].
Qed.

(** C5, as the code has it.  For a word [x] that is not a section name,
    the line [cd x] leaves the navigation state (the current section
    with it) as it is, and the output is the text
    "zsh: no such file or directory: " followed by [x]. *)
Theorem runCommand_cd_unknown rnd x s :
  word x → x ∉ TABS →
  nav (runCommand rnd (lit "cd " ++ x) s) = nav s ∧
  history (runCommand rnd (lit "cd " ++ x) s) =
    history s ++
      [{| cmd := lit "cd " ++ x;
          output := Some (lit "zsh: no such file or directory: " ++ x) |}].
Proof.
  intros Hw Hx.
  assert (parse (lit "cd " ++ x) = (Some (lit "cd"), Some x)) as Hp
    by apply (parse_two_words (lit "cd") x word_lit_cd Hw).
  rewrite (runCommand_parsed _ _ _ _ _ Hp).
  rewrite viewTarget_other by done.
  by rewrite dispatch_cd, tabTarget_unknown.
Qed.

Lemma runCommand_cd_unknown_witness :
  nav (runCommand 0 (lit "cd foo") initialState) = nav initialState ∧
  history (runCommand 0 (lit "cd foo") initialState) =
    [{| cmd := lit "cd foo";
        output := Some (lit "zsh: no such file or directory: foo") |}].
Proof.
  apply (runCommand_cd_unknown 0 (lit "foo") initialState).
  - by split.
  - apply (bool_decide_unpack _); vm_compute; exact I.
Defined.

(** C5 fails as stated: [foo] is not a section name, and the output of
    [cd foo] is not the string "no such file or directory: foo": it
    begins with "zsh: ". *)
Lemma runCommand_cd_unknown_counterexample :
  (lit "foo" ∉ TABS) ∧
  cwd (runCommand 0 (lit "cd foo") initialState) = cwd initialState ∧
  ¬ ∃ e, history (runCommand 0 (lit "cd foo") initialState) =
           history initialState ++ [e] ∧
         output e = Some (lit "no such file or directory: foo").
Proof.
  split; [apply (bool_decide_unpack _); vm_compute; exact I|].
  split; [reflexivity|].
  intros (e & He & Hout).
  vm_compute in He. injection He as <-. discriminate Hout.
Qed.

(** C6, as the code has it.  For a word [z] that is none of the verbs the
    interpreter knows, a line that starts with [z] leaves the navigation
    state as it is, and the output is the text
    "zsh: command not found: " followed by [z]. *)
Theorem runCommand_unknown_verb rnd z line s :
  word z → z ∉ verbs → starts_with z line →
  nav (runCommand rnd line s) = nav s ∧
  history (runCommand rnd line s) =
    history s ++
      [{| cmd := line;
          output := Some (lit "zsh: command not found: " ++ z) |}].
Proof.
  intros Hw Hz Hline.
  destruct (parse line) as [base arg] eqn:Hp.
  pose proof (parse_starts_with z line Hw Hline) as Hbase.
  rewrite Hp in Hbase. simpl in Hbase. subst base.
  rewrite (runCommand_parsed _ _ _ _ _ Hp).
  rewrite viewTarget_other.
  - by rewrite dispatch_unknown.
  - intros [= ->]. apply Hz. unfold verbs. rewrite !elem_of_cons. tauto.
Qed.

Lemma runCommand_unknown_verb_witness :
  nav (runCommand 0 (lit "  sudo rm  -rf ") initialState) = nav initialState ∧
  history (runCommand 0 (lit "  sudo rm  -rf ") initialState) =
    [{| cmd := lit "  sudo rm  -rf ";
        output := Some (lit "zsh: command not found: sudo") |}].
Proof.
  apply (runCommand_unknown_verb 0 (lit "sudo") (lit "  sudo rm  -rf ")
           initialState).
  - by split.
  - apply (bool_decide_unpack _); vm_compute; exact I.
  - exists (lit "  "), (lit " rm  -rf "). by repeat split.
Defined.

(** C6 fails as stated: [sudo] is not a verb of the interpreter, and the
    output for it is not the string "command not found: sudo": it begins
    with "zsh: ". *)
Lemma runCommand_unknown_verb_counterexample :
  (lit "sudo" ∉ verbs) ∧
  nav (runCommand 0 (lit "sudo") initialState) = nav initialState ∧
  ¬ ∃ e, history (runCommand 0 (lit "sudo") initialState) =
           history initialState ++ [e] ∧
         output e = Some (lit "command not found: sudo").
Proof.
  split; [apply (bool_decide_unpack _); vm_compute; exact I|].
  split; [reflexivity|].
  intros (e & He & Hout).
  vm_compute in He. injection He as <-. discriminate Hout.
Qed.

(** C7.  For a project key [k] and any state, the line [view k] selects
    [k], leaves the current section (and the selected work file) as it
    is, and appends exactly one entry, whose output is absent. *)
Theorem runCommand_view_project rnd k s :
  k ∈ ProjectKeys →
  selectedProject (runCommand rnd (lit "view " ++ k) s) = Some k ∧
  cwd (runCommand rnd (lit "view " ++ k) s) = cwd s ∧
  selectedWorkFile (runCommand rnd (lit "view " ++ k) s) = selectedWorkFile s ∧
  history (runCommand rnd (lit "view " ++ k) s) =
    history s ++ [{| cmd := lit "view " ++ k; output := None |}].
Proof.
  intros Hk.
  assert (parse (lit "view " ++ k) = (Some (lit "view"), Some k)) as Hp
    by (apply (parse_two_words (lit "view") k word_lit_view),
          word_ProjectKeys, Hk).
  rewrite (runCommand_parsed _ _ _ _ _ Hp).
  by rewrite viewTarget_known.
Qed.

Lemma runCommand_view_project_witness :
  lit "sentiment_analysis" ∈ ProjectKeys ∧
  let s := {| cwd := lit "projects"; selectedProject := None;
              selectedWorkFile := None; history := [] |} in
  selectedProject (runCommand 0 (lit "view sentiment_analysis") s) =
    Some (lit "sentiment_analysis") ∧
  cwd (runCommand 0 (lit "view sentiment_analysis") s) = lit "projects" ∧
  selectedWorkFile (runCommand 0 (lit "view sentiment_analysis") s) = None ∧
  history (runCommand 0 (lit "view sentiment_analysis") s) =
    [{| cmd := lit "view sentiment_analysis"; output := None |}].
Proof.
  assert (lit "sentiment_analysis" ∈ ProjectKeys) as Hk
    by (apply (bool_decide_unpack _); vm_compute; exact I).
  split; [exact Hk|].
  exact (runCommand_view_project 0 (lit "sentiment_analysis") _ Hk).
Defined.

(** C8.  In any state, [telnet towel.blinkenlights.nl] leaves the
    navigation state as it is and puts out [towelArt]; [telnet me] makes
    [contactme] the current section, empties both selections and leaves
    no output. *)
Theorem runCommand_telnet rnd s :
  (nav (runCommand rnd (lit "telnet towel.blinkenlights.nl") s) = nav s ∧
   history (runCommand rnd (lit "telnet towel.blinkenlights.nl") s) =
     history s ++
       [{| cmd := lit "telnet towel.blinkenlights.nl";
           output := Some towelArt |}]) ∧
  (nav (runCommand rnd (lit "telnet me") s) = (lit "contactme", None, None) ∧
   history (runCommand rnd (lit "telnet me") s) =
     history s ++ [{| cmd := lit "telnet me"; output := None |}]).
Proof. repeat split. Qed.

(** C9.  Whatever [Math.random] draws in its range, from 0 up to but not
    1, the output of [fortune] is an entry of [fortunes] and the
    navigation state stays as it is; and every entry of [fortunes] is the
    output for some draw of that range. *)
Theorem runCommand_fortune s :
  (∀ rnd, (0 <= rnd)%Q → (rnd < 1)%Q →
     ∃ q, q ∈ fortunes ∧
          nav (runCommand rnd (lit "fortune") s) = nav s ∧
          history (runCommand rnd (lit "fortune") s) =
            history s ++ [{| cmd := lit "fortune"; output := Some q |}]) ∧
  (∀ q, q ∈ fortunes →
     ∃ rnd, (0 <= rnd)%Q ∧ (rnd < 1)%Q ∧
            nav (runCommand rnd (lit "fortune") s) = nav s ∧
            history (runCommand rnd (lit "fortune") s) =
              history s ++ [{| cmd := lit "fortune"; output := Some q |}]).
Proof.
  split.
  - intros rnd H0 H1.
    destruct (index_fortunes_range _ (floor_scaled_range rnd H0 H1))
      as (q & Hq & Hidx).
    exists q. split; [done|].
    rewrite (runCommand_parsed rnd (lit "fortune") s
               (Some (lit "fortune")) None eq_refl).
    rewrite viewTarget_undefined, dispatch_fortune. cbn [fst snd].
    by rewrite Hidx.
  - intros q. unfold fortunes at 1. rewrite !elem_of_cons, elem_of_nil.
    intros [-> | [-> | [-> | [-> | []]]]].
    + by exists 0%Q.
    + by exists (1 # 4)%Q.
    + by exists (1 # 2)%Q.
    + by exists (3 # 4)%Q.
Qed.

Lemma runCommand_fortune_witness :
  (∃ q, q ∈ fortunes ∧
        nav (runCommand (5 # 8) (lit "fortune") initialState) =
          nav initialState ∧
        history (runCommand (5 # 8) (lit "fortune") initialState) =
          history initialState ++
            [{| cmd := lit "fortune"; output := Some q |}]) ∧
  (∃ rnd, (0 <= rnd)%Q ∧ (rnd < 1)%Q ∧
          nav (runCommand rnd (lit "fortune") initialState) =
            nav initialState ∧
          history (runCommand rnd (lit "fortune") initialState) =
            history initialState ++
              [{| cmd := lit "fortune";
                  output := Some (lit "Data is the new oil. " ++ dash ++
                                  lit " Clive Humby") |}]).
Proof.
  split.
  - apply (proj1 (runCommand_fortune initialState) (5 # 8)%Q);
      unfold Qle, Qlt; simpl; lia.
  - apply (proj2 (runCommand_fortune initialState)).
    apply (bool_decide_unpack _); vm_compute; exact I.
Defined.

(** C10.  The line [cd], with no argument, leaves the navigation state
    as it is, and the output of the entry it appends is
    "zsh: no such file or directory: undefined": the missing second piece
    is [undefined], not the empty string. *)
Theorem runCommand_cd_no_argument rnd s :
  parse (lit "cd") = (Some (lit "cd"), None) ∧
  nav (runCommand rnd (lit "cd") s) = nav s ∧
  history (runCommand rnd (lit "cd") s) =
    history s ++
      [{| cmd := lit "cd";
          output := Some (lit "zsh: no such file or directory: undefined") |}].
Proof. repeat split. Qed.

(** ** Scenarios *)

(** [cd skills], then [ls]. *)
Example scenario_cd_then_ls :
  runSession [(0%Q, lit "cd skills"); (0%Q, lit "ls")] initialState =
    {| cwd := lit "skills"; selectedProject := None; selectedWorkFile := None;
       history := [ {| cmd := lit "cd skills"; output := None |};
                    {| cmd := lit "ls"; output := None |} ] |}.
Proof. reflexivity. Qed.

(** [cd projects] after a project was selected there. *)
Example scenario_reenter_projects :
  runSession [(0%Q, lit "cd projects"); (0%Q, lit "view movie_recommender");
              (0%Q, lit "cd projects")] initialState =
    {| cwd := lit "projects"; selectedProject := None; selectedWorkFile := None;
       history := [ {| cmd := lit "cd projects"; output := None |};
                    {| cmd := lit "view movie_recommender"; output := None |};
                    {| cmd := lit "cd projects"; output := None |} ] |}.
Proof. reflexivity. Qed.

(** [help] puts out the same line in any state. *)
Lemma runCommand_help rnd s :
  nav (runCommand rnd (lit "help") s) = nav s ∧
  history (runCommand rnd (lit "help") s) =
    history s ++ [{| cmd := lit "help"; output := Some helpText |}].
Proof. repeat split. Qed.

(** ** The shapes a line can have *)

Section Shapes.

Implicit Types (s t w v x pre sep rest post line : jsstring) (c : char).

Lemma blank_nil : blank [].
Proof. reflexivity. Qed.

Lemma blank_app s t : blank (s ++ t) ↔ blank s ∧ blank t.
Proof. unfold blank. rewrite forallb_app. apply andb_true_iff. Qed.

Lemma blank_cons c s : blank (c :: s) ↔ is_ws c = true ∧ blank s.
Proof. unfold blank. simpl. apply andb_true_iff. Qed.

Lemma blank_boundary s : blank s → boundary s.
Proof. destruct s as [|c s]; [done|]. by intros [Hc _]%blank_cons. Qed.

Lemma boundary_app_blank rest post :
  boundary rest → blank post → boundary (rest ++ post).
Proof.
  destruct rest as [|c rest]; simpl; [|done].
  intros _. apply blank_boundary.
Qed.

Lemma word_cons c w :
  is_ws c = false → forallb (λ c, negb (is_ws c)) w = true → word (c :: w).
Proof. intros Hc Hw. split; [done|]. simpl. by rewrite Hc. Qed.

Lemma word_not_boundary w t : word w → boundary (w ++ t) → False.
Proof.
  intros [Hne Hw]. destruct w as [|c w]; [done|]. simpl in *.
  apply andb_true_iff in Hw as [Hc _]. apply negb_true_iff in Hc.
  intros Hb. by rewrite Hb in Hc.
Qed.

Lemma word_not_blank w : word w → ¬ blank w.
Proof.
  intros Hw Hb. apply (word_not_boundary w []); [done|].
  rewrite app_nil_r. by apply blank_boundary.
Qed.

(** The longest run of characters that are not blank, at the front. *)
Lemma span_word s :
  ∃ w rest, s = w ++ rest ∧
            forallb (λ c, negb (is_ws c)) w = true ∧ boundary rest.
Proof.
  induction s as [|c s (w & rest & -> & Hw & Hrest)].
  - by exists [], [].
  - destruct (is_ws c) eqn:Hc.
    + by exists [], (c :: w ++ rest).
    + exists (c :: w), rest. simpl. by rewrite Hc.
Qed.

(** A line is blank, or it starts with a word. *)
Lemma line_cases line :
  blank line ∨
  ∃ pre w rest, line = pre ++ w ++ rest ∧ blank pre ∧ word w ∧ boundary rest.
Proof.
  induction line as [|c line IH]; [by left|].
  destruct (is_ws c) eqn:Hc.
  - destruct IH as [Hb|(pre & w & rest & -> & Hpre & Hw & Hrest)].
    + left. by apply blank_cons.
    + right. exists (c :: pre), w, rest.
      split; [done|]. split; [by apply blank_cons|done].
  - right. destruct (span_word line) as (w & rest & -> & Hw & Hrest).
    exists [], (c :: w), rest. split; [done|]. split; [done|].
    split; [by apply word_cons|done].
Qed.

Lemma trimEnd_app_word_app s w t :
  word w → trimEnd (s ++ w ++ t) = s ++ w ++ trimEnd t.
Proof.
  intros Hw. induction t as [|c t IH] using rev_ind.
  - by rewrite trimEnd_nil, !app_nil_r, trimEnd_app_word.
  - rewrite !app_assoc, !trimEnd_snoc, <- !app_assoc, IH.
    by destruct (is_ws c).
Qed.

Lemma split_run_true_blank_app pre t :
  blank pre → split_run true (pre ++ t) = split_run true t.
Proof.
  induction pre as [|c pre IH]; [done|].
  intros [Hc Hpre]%blank_cons. simpl. rewrite Hc. auto.
Qed.

Lemma split_run_sep_word sep x rest :
  blank sep → sep ≠ [] → word x → boundary rest →
  ∃ ps, split_run false (sep ++ x ++ rest) = [] :: x :: ps.
Proof.
  intros Hsep Hne Hx Hrest. destruct sep as [|c sep]; [done|].
  apply blank_cons in Hsep as [Hc Hsep]. simpl. rewrite Hc.
  rewrite split_run_true_blank_app, split_run_word_app by done.
  destruct (split_run_boundary rest Hrest) as [ps ->].
  exists ps. simpl. by rewrite app_nil_r.
Qed.

Lemma parse_one_word pre v post :
  blank pre → word v → blank post → parse (pre ++ v ++ post) = (Some v, None).
Proof.
  intros Hpre Hv Hpost. unfold parse.
  rewrite trim_starts_with, trimEnd_blank, app_nil_r by done.
  by rewrite split_ws_word.
Qed.

Lemma parse_words pre v sep x rest :
  blank pre → word v → blank sep → sep ≠ [] → word x → boundary rest →
  parse (pre ++ v ++ sep ++ x ++ rest) = (Some v, Some x).
Proof.
  intros Hpre Hv Hsep Hne Hx Hrest. unfold parse.
  rewrite trim_starts_with by done.
  rewrite (trimEnd_app_word_app sep x rest Hx).
  unfold split_ws. rewrite split_run_word_app by done.
  destruct (split_run_sep_word sep x (trimEnd rest)) as [ps ->];
    [done|done|done|by apply boundary_trimEnd|].
  simpl. by rewrite app_nil_r.
Qed.

(** The three shapes: no word, one word, two words or more. *)
Lemma line_shape line :
  blank line ∨
  (∃ pre v post, line = pre ++ v ++ post ∧ blank pre ∧ word v ∧ blank post) ∨
  (∃ pre v sep x rest,
     line = pre ++ v ++ sep ++ x ++ rest ∧
     blank pre ∧ word v ∧ blank sep ∧ sep ≠ [] ∧ word x ∧ boundary rest).
Proof.
  destruct (line_cases line) as [Hb|(pre & v & rest & -> & Hpre & Hv & Hrest)];
    [by left|right].
  destruct (line_cases rest) as [Hb|(sep & x & rest' & -> & Hsep & Hx & Hrest')].
  - left. by exists pre, v, rest.
  - right. exists pre, v, sep, x, rest'.
    do 4 (split; [done|]). split; [|done].
    intros ->. by apply (word_not_boundary x rest').
Qed.

End Shapes.

(** ** What parsing keeps of a line *)

Lemma join_space_cons w w' l :
  join (lit " ") (w :: w' :: l) = w ++ lit " " ++ join (lit " ") (w' :: l).
Proof. reflexivity. Qed.

Lemma split_run_space t :
  split_run false (lit " " ++ t) = [] :: split_run true t.
Proof. reflexivity. Qed.

Lemma split_run_join b w l :
  Forall word (w :: l) → split_run b (join (lit " ") (w :: l)) = w :: l.
Proof.
  revert b w. induction l as [|w' l IH]; intros b w Hall.
  - apply Forall_cons in Hall as [Hw _]. simpl.
    rewrite <- (app_nil_r w) at 1. rewrite split_run_word_app by done.
    simpl. by rewrite app_nil_r.
  - apply Forall_cons in Hall as [Hw Hall].
    rewrite join_space_cons, split_run_word_app, split_run_space by done.
    rewrite IH by done. simpl. by rewrite app_nil_r.
Qed.

Lemma join_ends_with_word w l :
  Forall word (w :: l) →
  ∃ t w', word w' ∧ join (lit " ") (w :: l) = t ++ w'.
Proof.
  revert w. induction l as [|w' l IH]; intros w Hall.
  - apply Forall_cons in Hall as [Hw _]. by exists [], w.
  - apply Forall_cons in Hall as [Hw Hall].
    destruct (IH w' Hall) as (t & wl & Hwl & Heq).
    exists (w ++ lit " " ++ t), wl. split; [done|].
    by rewrite join_space_cons, Heq, <- !app_assoc.
Qed.

Lemma trim_join w l :
  Forall word (w :: l) →
  trim (join (lit " ") (w :: l)) = join (lit " ") (w :: l).
Proof.
  intros Hall. unfold trim.
  assert (trimStart (join (lit " ") (w :: l)) = join (lit " ") (w :: l)) as ->.
  { pose proof Hall as [Hw _]%Forall_cons. destruct l as [|w' l].
    - simpl. rewrite <- (app_nil_r w) at 1.
      rewrite trimStart_word_app by done. by rewrite app_nil_r.
    - rewrite join_space_cons. by apply trimStart_word_app. }
  destruct (join_ends_with_word w l Hall) as (t & wl & Hwl & ->).
  by apply trimEnd_app_word.
Qed.

(** The verb is always there: [base] is never [undefined], and it is the
    empty string for a blank line only.  A verb and an argument that are
    read are words: not empty, no blank in them. *)
Theorem parse_classification line :
  (blank line ∧ parse line = (Some [], None)) ∨
  (∃ v, word v ∧ parse line = (Some v, None)) ∨
  (∃ v x, word v ∧ word x ∧ parse line = (Some v, Some x)).
Proof.
  destruct (line_shape line)
    as [Hb|[(pre & v & post & -> & Hpre & Hv & Hpost)
           |(pre & v & sep & x & rest & -> & Hpre & Hv & Hsep & Hne & Hx & Hrest)]].
  - left. split; [done|]. by apply parse_blank.
  - right. left. exists v. split; [done|]. by apply parse_one_word.
  - right. right. exists v, x. split; [done|]. split; [done|].
    by apply parse_words.
Qed.

(** Blanks in front, runs of blanks between the words, and whatever
    follows the second word do not matter: the first two words are the
    verb and the argument. *)
Theorem parse_first_two_words pre v sep x rest :
  blank pre → word v → blank sep → sep ≠ [] → word x → boundary rest →
  parse (pre ++ v ++ sep ++ x ++ rest) = (Some v, Some x).
Proof. apply parse_words. Qed.

Lemma parse_first_two_words_witness :
  parse (lit "  cd   skills now  ") = (Some (lit "cd"), Some (lit "skills")).
Proof.
  apply (parse_first_two_words (lit "  ") (lit "cd") (lit "   ") (lit "skills")
           (lit " now  ")); by try split.
Defined.

(** Blanks around a line change nothing of what is parsed. *)
Theorem parse_surrounding_blanks pre line post :
  blank pre → blank post → parse (pre ++ line ++ post) = parse line.
Proof.
  intros Hpre Hpost.
  destruct (line_shape line)
    as [Hb|[(p & v & q & -> & Hp & Hv & Hq)
           |(p & v & sep & x & rest & -> & Hp & Hv & Hsep & Hne & Hx & Hrest)]].
  - rewrite !parse_blank; [done|done|]. by rewrite !blank_app.
  - rewrite (parse_one_word p v q) by done.
    replace (pre ++ (p ++ v ++ q) ++ post) with ((pre ++ p) ++ v ++ (q ++ post))
      by (by rewrite <- !app_assoc).
    apply parse_one_word; [|done|]; by rewrite blank_app.
  - rewrite (parse_words p v sep x rest) by done.
    replace (pre ++ (p ++ v ++ sep ++ x ++ rest) ++ post)
      with ((pre ++ p) ++ v ++ sep ++ x ++ (rest ++ post))
      by (by rewrite <- !app_assoc).
    apply parse_words; try done; [by rewrite blank_app|].
    by apply boundary_app_blank.
Qed.

Lemma parse_surrounding_blanks_witness :
  parse (lit "  telnet me now " ++ [9%N]) = parse (lit "telnet me now").
Proof.
  apply (parse_surrounding_blanks (lit "  ") (lit "telnet me now")
           (lit " " ++ [9%N])); reflexivity.
Defined.

(** Words joined by single spaces split back to the same words. *)
Theorem split_join_round_trip w l :
  Forall word (w :: l) →
  split_ws (trim (join (lit " ") (w :: l))) = w :: l.
Proof.
  intros Hall. rewrite trim_join by done. by apply split_run_join.
Qed.

Lemma split_join_round_trip_witness :
  split_ws (trim (lit "telnet towel.blinkenlights.nl now")) =
    [lit "telnet"; lit "towel.blinkenlights.nl"; lit "now"].
Proof.
  apply (split_join_round_trip (lit "telnet")
           [lit "towel.blinkenlights.nl"; lit "now"]).
  repeat constructor; discriminate.
Defined.

(** ** More on one submission *)

Section Submission.

Implicit Types (s : State) (line x k : jsstring) (rnd : Q).
Implicit Types (base arg : option jsstring).

Lemma parse_verb line v :
  word v → starts_with v line → parse line = (Some v, (parse line).2).
Proof.
  intros Hv Hline. pose proof (parse_starts_with v line Hv Hline) as Hb.
  destruct (parse line) as [base a]. simpl in *. by subst.
Qed.

Lemma viewTarget_Some base arg k :
  viewTarget base arg = Some k →
  base = Some (lit "view") ∧ arg = Some k ∧ k ≠ [] ∧
  has_property projectsMeta k = true.
Proof.
  unfold viewTarget. case_bool_decide as Hb; [|done].
  destruct arg as [a|]; [|done].
  destruct (bool_decide (a ≠ [])) eqn:Ha; simpl; [|done].
  destruct (has_property projectsMeta a) eqn:Hp; [|done].
  intros [= <-]. by apply bool_decide_eq_true_1 in Ha.
Qed.

Lemma tabTarget_Some arg tab :
  tabTarget arg = Some tab → arg = Some tab ∧ tab ∈ TABS.
Proof.
  destruct arg as [a|]; simpl; [|done]. case_bool_decide; [|done].
  by intros [= <-].
Qed.

Lemma index_fortunes_not_empty z : index fortunes z ≠ Some [].
Proof.
  unfold index. destruct (z <? 0)%Z; [done|].
  by destruct (Z.to_nat z) as [|[|[|[|n]]]].
Qed.

Lemma dispatch_output_not_empty rnd base arg s :
  (dispatch rnd base arg s).2 ≠ Some [].
Proof.
  unfold dispatch. repeat case_bool_decide; try done.
  - by destruct (tabTarget arg).
  - apply index_fortunes_not_empty.
Qed.

Lemma dispatch_output_any_state rnd base arg s1 s2 :
  (dispatch rnd base arg s1).2 = (dispatch rnd base arg s2).2.
Proof.
  unfold dispatch. repeat case_bool_decide; try done.
  by destruct (tabTarget arg).
Qed.

Lemma runSession_cwd_TABS inputs s :
  cwd s ∈ TABS → cwd (runSession inputs s) ∈ TABS.
Proof.
  revert s. induction inputs as [|[rnd line] inputs IH]; intros s Hs; [done|].
  unfold runSession in *. simpl. by apply IH, runCommand_cwd_TABS.
Qed.

(** [ls] takes no notice of what follows it: nothing changes and nothing
    is put out. *)
Theorem runCommand_ls rnd line s :
  starts_with (lit "ls") line →
  nav (runCommand rnd line s) = nav s ∧
  history (runCommand rnd line s) =
    history s ++ [{| cmd := line; output := None |}].
Proof.
  intros Hline.
  rewrite (runCommand_parsed _ _ _ _ _
             (parse_verb line (lit "ls") ltac:(by split) Hline)).
  by rewrite viewTarget_other.
Qed.

Lemma runCommand_ls_witness :
  nav (runCommand 0 (lit " ls -la projects") initialState) = nav initialState ∧
  history (runCommand 0 (lit " ls -la projects") initialState) =
    [{| cmd := lit " ls -la projects"; output := None |}].
Proof.
  apply (runCommand_ls 0 (lit " ls -la projects") initialState).
  exists (lit " "), (lit " -la projects"). by repeat split.
Defined.

(** [help] puts out the same line whatever the state and whatever
    follows it, and changes nothing. *)
Theorem runCommand_help_any rnd line s :
  starts_with (lit "help") line →
  nav (runCommand rnd line s) = nav s ∧
  history (runCommand rnd line s) =
    history s ++ [{| cmd := line; output := Some helpText |}].
Proof.
  intros Hline.
  rewrite (runCommand_parsed _ _ _ _ _
             (parse_verb line (lit "help") ltac:(by split) Hline)).
  by rewrite viewTarget_other.
Qed.

Lemma runCommand_help_any_witness :
  nav (runCommand 0 (lit "help cd") initialState) = nav initialState ∧
  history (runCommand 0 (lit "help cd") initialState) =
    [{| cmd := lit "help cd"; output := Some helpText |}].
Proof.
  apply (runCommand_help_any 0 (lit "help cd") initialState).
  exists [], (lit " cd"). by repeat split.
Defined.

(** [telnet] with no host, or with a host that is neither of the two it
    knows, changes nothing and reports the host it was given; a missing
    host is reported as "undefined". *)
Theorem runCommand_telnet_unknown rnd s :
  (nav (runCommand rnd (lit "telnet") s) = nav s ∧
   history (runCommand rnd (lit "telnet") s) =
     history s ++
       [{| cmd := lit "telnet";
           output := Some (lit "zsh: could not connect to host: undefined") |}]) ∧
  (∀ x, word x → x ≠ lit "towel.blinkenlights.nl" → x ≠ lit "me" →
     nav (runCommand rnd (lit "telnet " ++ x) s) = nav s ∧
     history (runCommand rnd (lit "telnet " ++ x) s) =
       history s ++
         [{| cmd := lit "telnet " ++ x;
             output := Some (lit "zsh: could not connect to host: " ++ x) |}]).
Proof.
  split; [by repeat split|]. intros x Hx Htowel Hme.
  assert (parse (lit "telnet " ++ x) = (Some (lit "telnet"), Some x)) as Hp
    by (by apply (parse_two_words (lit "telnet") x)).
  rewrite (runCommand_parsed _ _ _ _ _ Hp).
  rewrite viewTarget_other by done. unfold dispatch.
  rewrite (bool_decide_eq_false_2 (Some x = Some (lit "towel.blinkenlights.nl")))
    by congruence.
  by rewrite (bool_decide_eq_false_2 (Some x = Some (lit "me"))) by congruence.
Qed.

Lemma runCommand_telnet_unknown_witness :
  nav (runCommand 0 (lit "telnet localhost") initialState) = nav initialState ∧
  history (runCommand 0 (lit "telnet localhost") initialState) =
    [{| cmd := lit "telnet localhost";
        output := Some (lit "zsh: could not connect to host: localhost") |}].
Proof.
  apply (proj2 (runCommand_telnet_unknown 0 initialState) (lit "localhost"));
    by try split.
Defined.

(** [cd] reads its first argument only: blanks in front, a run of blanks
    after the verb and further words change nothing of what it does. *)
Theorem runCommand_cd_any_spacing rnd pre sep x rest s :
  blank pre → blank sep → sep ≠ [] → x ∈ TABS → boundary rest →
  cwd (runCommand rnd (pre ++ lit "cd" ++ sep ++ x ++ rest) s) = x ∧
  selectedProject (runCommand rnd (pre ++ lit "cd" ++ sep ++ x ++ rest) s) = None ∧
  selectedWorkFile (runCommand rnd (pre ++ lit "cd" ++ sep ++ x ++ rest) s) = None ∧
  history (runCommand rnd (pre ++ lit "cd" ++ sep ++ x ++ rest) s) =
    history s ++
      [{| cmd := pre ++ lit "cd" ++ sep ++ x ++ rest; output := None |}].
Proof.
  intros Hpre Hsep Hne Hx Hrest.
  rewrite (runCommand_parsed _ _ _ _ _
             (parse_words pre (lit "cd") sep x rest Hpre word_lit_cd Hsep Hne
                (word_TABS x Hx) Hrest)).
  rewrite viewTarget_other by done.
  by rewrite dispatch_cd, tabTarget_known.
Qed.

Lemma runCommand_cd_any_spacing_witness :
  cwd (runCommand 0 (lit " cd   aboutme please") initialState) = lit "aboutme" ∧
  selectedProject (runCommand 0 (lit " cd   aboutme please") initialState) = None ∧
  selectedWorkFile (runCommand 0 (lit " cd   aboutme please") initialState) = None ∧
  history (runCommand 0 (lit " cd   aboutme please") initialState) =
    [{| cmd := lit " cd   aboutme please"; output := None |}].
Proof.
  apply (runCommand_cd_any_spacing 0 (lit " ") (lit "   ") (lit "aboutme")
           (lit " please") initialState); try done.
  apply (bool_decide_unpack _); vm_compute; exact I.
Defined.

(** Only [cd], [telnet] and [view] can change the navigation state. *)
Theorem runCommand_nav_changes_only_by rnd line s :
  nav (runCommand rnd line s) ≠ nav s →
  (parse line).1 ∈ [Some (lit "cd"); Some (lit "telnet"); Some (lit "view")].
Proof.
  destruct (parse line) as [base arg] eqn:Hp.
  rewrite (runCommand_parsed _ _ _ _ _ Hp). simpl.
  destruct (viewTarget base arg) as [k|] eqn:Hv.
  - apply viewTarget_Some in Hv as (-> & _). intros _.
    rewrite !elem_of_cons. tauto.
  - rewrite nav_pushHistory. unfold dispatch.
    repeat case_bool_decide; subst; try done;
      intros _; rewrite !elem_of_cons; tauto.
Qed.

Lemma runCommand_nav_changes_only_by_witness :
  (parse (lit "telnet me")).1 ∈
    [Some (lit "cd"); Some (lit "telnet"); Some (lit "view")].
Proof.
  apply (runCommand_nav_changes_only_by 0 (lit "telnet me") initialState).
  vm_compute. discriminate.
Defined.

(** Either the section and the work file stay, or both selections are
    emptied. *)
Lemma runCommand_step_cases rnd line s :
  (cwd (runCommand rnd line s) = cwd s ∧
   selectedWorkFile (runCommand rnd line s) = selectedWorkFile s) ∨
  (selectedProject (runCommand rnd line s) = None ∧
   selectedWorkFile (runCommand rnd line s) = None).
Proof.
  destruct (parse line) as [base arg] eqn:Hp.
  rewrite (runCommand_parsed _ _ _ _ _ Hp).
  destruct (viewTarget base arg) as [k|]; [by left|]. simpl.
  unfold dispatch. repeat case_bool_decide; try (by left); try (by right).
  destruct (tabTarget arg); [by right|by left].
Qed.

Lemma runCommand_entry_shown rnd line s :
  ∃ out, history (runCommand rnd line s) =
           history s ++ [{| cmd := line; output := out |}] ∧
         truthy out = out.
Proof.
  destruct (parse line) as [base arg] eqn:Hp.
  rewrite (runCommand_parsed _ _ _ _ _ Hp).
  destruct (viewTarget base arg) as [k|].
  - by exists None.
  - exists (dispatch rnd base arg s).2.
    rewrite history_pushHistory, dispatch_history. split; [done|].
    pose proof (dispatch_output_not_empty rnd base arg s) as Hne.
    by destruct (dispatch rnd base arg s).2 as [[|c o]|].
Qed.

(** A submission that changes the section leaves both selections
    empty. *)
Theorem runCommand_section_change_clears rnd line s :
  cwd (runCommand rnd line s) ≠ cwd s →
  selectedProject (runCommand rnd line s) = None ∧
  selectedWorkFile (runCommand rnd line s) = None.
Proof.
  intros Hcwd. by destruct (runCommand_step_cases rnd line s) as [[? _]|?].
Qed.

Lemma runCommand_section_change_clears_witness :
  let s := {| cwd := lit "terminal";
              selectedProject := Some (lit "airbnb_analysis");
              selectedWorkFile := Some (lit "capgemini.sql");
              history := [] |} in
  selectedProject (runCommand 0 (lit "cd skills") s) = None ∧
  selectedWorkFile (runCommand 0 (lit "cd skills") s) = None.
Proof.
  apply (runCommand_section_change_clears 0 (lit "cd skills")).
  vm_compute. discriminate.
Defined.

(** No command selects a work file: after a submission the selected work
    file is what it was, or none.  The selected project is what it was,
    none, or the argument typed. *)
Theorem runCommand_selections rnd line s :
  (selectedWorkFile (runCommand rnd line s) = selectedWorkFile s ∨
   selectedWorkFile (runCommand rnd line s) = None) ∧
  (selectedProject (runCommand rnd line s) = selectedProject s ∨
   selectedProject (runCommand rnd line s) = None ∨
   selectedProject (runCommand rnd line s) = (parse line).2).
Proof.
  destruct (parse line) as [base arg] eqn:Hp.
  rewrite (runCommand_parsed _ _ _ _ _ Hp).
  destruct (viewTarget base arg) as [k|] eqn:Hv.
  - apply viewTarget_Some in Hv as (_ & -> & _). simpl. tauto.
  - simpl. unfold dispatch. repeat case_bool_decide; simpl; try tauto.
    destruct (tabTarget arg); simpl; tauto.
Qed.

(** The entry a submission appends does not depend on the state: the
    interpreter reads the line only. *)
Theorem runCommand_entry_any_state rnd line s1 s2 :
  ∃ e, history (runCommand rnd line s1) = history s1 ++ [e] ∧
       history (runCommand rnd line s2) = history s2 ++ [e].
Proof.
  destruct (parse line) as [base arg] eqn:Hp.
  rewrite !(runCommand_parsed _ _ _ _ _ Hp).
  destruct (viewTarget base arg) as [k|].
  - by exists {| cmd := line; output := None |}.
  - exists {| cmd := line; output := (dispatch rnd base arg s1).2 |}.
    rewrite !history_pushHistory, !dispatch_history.
    by rewrite (dispatch_output_any_state rnd base arg s2 s1).
Qed.

(** Submitting the same line again does not move the navigation state
    further. *)
Theorem runCommand_nav_idempotent rnd1 rnd2 line s :
  nav (runCommand rnd2 line (runCommand rnd1 line s)) =
    nav (runCommand rnd1 line s).
Proof.
  destruct (parse line) as [base arg] eqn:Hp.
  rewrite !(runCommand_parsed _ _ _ _ _ Hp).
  destruct (viewTarget base arg) as [k|]; [done|].
  rewrite !nav_pushHistory. unfold dispatch.
  repeat case_bool_decide; try done.
  by destruct (tabTarget arg).
Qed.

(** An output that is put out is never the empty string, so the test
    [h.output &&] of the scrollback hides the absent outputs only. *)
Theorem runCommand_output_shown rnd line s :
  ∃ e, history (runCommand rnd line s) = history s ++ [e] ∧
       cmd e = line ∧
       truthy (output e) = output e.
Proof.
  destruct (runCommand_entry_shown rnd line s) as (out & Hh & Hout).
  by exists {| cmd := line; output := out |}.
Qed.

(** A name inherited from the prototype passes for a project key:
    [view] selects it, although it is no key of [projectsMeta], and the
    projects panel cannot be built for it. *)
Theorem runCommand_view_inherited rnd k s :
  k ∈ Object_prototype_keys →
  (k ∉ ProjectKeys) ∧
  selectedProject (runCommand rnd (lit "view " ++ k) s) = Some k ∧
  ∀ s', cwd s' = lit "projects" → selectedProject s' = Some k →
        renderContent s' = None.
Proof.
  unfold Object_prototype_keys. rewrite !elem_of_cons, elem_of_nil.
  intros Hk.
  repeat (destruct Hk as [->|Hk];
          [split; [apply (bool_decide_unpack _); vm_compute; exact I|];
           split; [reflexivity|];
           intros s' Hcwd Hsel; unfold renderContent;
           rewrite Hcwd, Hsel; reflexivity|]).
  done.
Qed.

Lemma runCommand_view_inherited_witness :
  (lit "constructor" ∉ ProjectKeys) ∧
  selectedProject (runCommand 0 (lit "view constructor") initialState) =
    Some (lit "constructor") ∧
  ∀ s', cwd s' = lit "projects" → selectedProject s' = Some (lit "constructor") →
        renderContent s' = None.
Proof.
  apply (runCommand_view_inherited 0 (lit "constructor") initialState).
  apply (bool_decide_unpack _); vm_compute; exact I.
Defined.

(** A whole session from the first page: the section shown is one of
    [TABS] throughout, and the scrollback holds the lines submitted, as
    typed and in order. *)
Theorem runSession_from_start inputs :
  cwd (runSession inputs initialState) ∈ TABS ∧
  cmd <$> history (runSession inputs initialState) = inputs.*2 ∧
  length (history (runSession inputs initialState)) = length inputs.
Proof.
  split; [|split].
  - apply runSession_cwd_TABS. unfold TABS. rewrite !elem_of_cons. tauto.
  - by rewrite runSession_history.
  - rewrite <- (length_fmap cmd), runSession_history. simpl.
    by rewrite length_fmap.
Qed.

End Submission.

(** ** Titles *)

Section Titles.

Implicit Types (t : jsstring) (s : State).

Lemma strip_ws_word_chars t :
  forallb (λ c, negb (is_ws c)) t = true → strip_ws t = t.
Proof.
  unfold strip_ws. induction t as [|c t IH]; simpl; [done|].
  intros [Hc Ht]%andb_true_iff. rewrite Hc. by rewrite IH.
Qed.

Lemma prefixTitle_section t :
  forallb (λ c, negb (is_ws c)) t = true → t ≠ lit "terminal" →
  prefixTitle t = lit "~/" ++ t ++ lit " " ++ longdash ++ lit " -zsh".
Proof.
  intros Ht Hne. unfold prefixTitle.
  by rewrite bool_decide_eq_false_2, strip_ws_word_chars.
Qed.

(** Two names without blanks get different tab labels. *)
Theorem prefixTitle_distinct t1 t2 :
  forallb (λ c, negb (is_ws c)) t1 = true →
  forallb (λ c, negb (is_ws c)) t2 = true →
  t1 ≠ t2 → prefixTitle t1 ≠ prefixTitle t2.
Proof.
  intros H1 H2 Hne Heq.
  destruct (decide (t1 = lit "terminal")) as [->|Hn1];
    destruct (decide (t2 = lit "terminal")) as [->|Hn2]; [done| | |].
  - rewrite (prefixTitle_section t2) in Heq by done. discriminate Heq.
  - rewrite (prefixTitle_section t1) in Heq by done. discriminate Heq.
  - rewrite !prefixTitle_section in Heq by done.
    apply app_inv_head, app_inv_tail in Heq. done.
Qed.

Lemma prefixTitle_distinct_witness :
  prefixTitle (lit "skills") ≠ prefixTitle (lit "terminal").
Proof.
  apply (prefixTitle_distinct (lit "skills") (lit "terminal"));
    [reflexivity|reflexivity|discriminate].
Defined.

(** For a section of [TABS], the title of the window is the label of the
    section's tab, except in the terminal section. *)
Theorem topBarTitle_prefixTitle s :
  cwd s ∈ TABS →
  (topBarTitle s = prefixTitle (cwd s) ↔ cwd s ≠ lit "terminal").
Proof.
  intros Hs. unfold topBarTitle. split.
  - intros Heq Hterm. rewrite Hterm in Heq. discriminate Heq.
  - intros Hne. rewrite bool_decide_eq_false_2 by done.
    rewrite prefixTitle_section; [done| |done].
    by apply word_TABS.
Qed.

Lemma topBarTitle_prefixTitle_witness :
  let s := {| cwd := lit "projects"; selectedProject := None;
              selectedWorkFile := None; history := [] |} in
  topBarTitle s = prefixTitle (lit "projects") ↔
  lit "projects" ≠ lit "terminal".
Proof.
  apply (topBarTitle_prefixTitle
           {| cwd := lit "projects"; selectedProject := None;
              selectedWorkFile := None; history := [] |}).
  apply (bool_decide_unpack _); vm_compute; exact I.
Defined.

End Titles.

(** ** The page under its events *)

Section Events.

Implicit Types (p : Page) (e : Event) (es : list Event) (s : State).

Lemma lit_terminal_not_projects : lit "terminal" ≠ lit "projects".
Proof. discriminate. Qed.

Lemma lit_workexperience_not_projects : lit "workexperience" ≠ lit "projects".
Proof. discriminate. Qed.

Lemma TABS_terminal : lit "terminal" ∈ TABS.
Proof. unfold TABS. rewrite !elem_of_cons. tauto. Qed.

Lemma runCommand_cd_state rnd t s :
  t ∈ TABS →
  runCommand rnd (lit "cd " ++ t) s =
    pushHistory {| cmd := lit "cd " ++ t; output := None |} (openTab t s).
Proof.
  intros Ht.
  assert (parse (lit "cd " ++ t) = (Some (lit "cd"), Some t)) as Hp
    by (apply (parse_two_words (lit "cd") t word_lit_cd), word_TABS, Ht).
  rewrite (runCommand_parsed _ _ _ _ _ Hp).
  rewrite viewTarget_other by done.
  by rewrite dispatch_cd, tabTarget_known.
Qed.

Lemma handle_history_other e p :
  isSubmit e = false → history (state (handle e p)) = history (state p).
Proof.
  destruct e; simpl; try done. unfold onKeyDown. by intros ->.
Qed.

Lemma handle_history_submit e p :
  isSubmit e = true →
  ∃ out, history (state (handle e p)) =
           history (state p) ++ [{| cmd := command p; output := out |}] ∧
         truthy out = out.
Proof.
  destruct e; simpl; try done. unfold onKeyDown. intros ->. simpl.
  apply runCommand_entry_shown.
Qed.

Lemma wellFormed_initial : wellFormed initialState.
Proof. split; [apply TABS_terminal|]. by split. Qed.

Lemma wellFormed_openTab t s : t ∈ TABS → wellFormed (openTab t s).
Proof. intros Ht. split; [done|]. by split. Qed.

Lemma wellFormed_runCommand rnd line s :
  cwd s = lit "terminal" → wellFormed s → wellFormed (runCommand rnd line s).
Proof.
  intros Hterm (Hcwd & _ & Hwork).
  split; [by apply runCommand_cwd_TABS|].
  destruct (runCommand_step_cases rnd line s) as [[Hc Hw]|[Hp Hw]].
  - split.
    + rewrite Hc, Hterm. intros Habs. by destruct lit_terminal_not_projects.
    + by rewrite Hw.
  - split; [by rewrite Hp|by rewrite Hw].
Qed.

Lemma wellFormed_handle e p :
  enabled e p = true → wellFormed (state p) → wellFormed (state (handle e p)).
Proof.
  intros Hen Hwf. destruct e as [v|key rnd|v|t| | |k|f]; simpl in *; try done.
  - apply bool_decide_eq_true_1 in Hen. unfold onKeyDown.
    case_bool_decide; [|done]. by apply wellFormed_runCommand.
  - apply bool_decide_eq_true_1 in Hen. by apply wellFormed_openTab.
  - apply bool_decide_eq_true_1 in Hen. by apply wellFormed_openTab.
  - destruct Hwf as (_ & _ & Hwork).
    split; [apply TABS_terminal|]. split; [|done].
    intros Habs. by destruct lit_terminal_not_projects.
  - apply andb_true_iff in Hen as [Hc%bool_decide_eq_true_1 Hk%bool_decide_eq_true_1].
    destruct Hwf as (Hcwd & _ & Hwork). split; [done|]. split; [|done].
    by intros _ k' [= <-].
  - apply andb_true_iff in Hen as [Hc%bool_decide_eq_true_1 Hf%bool_decide_eq_true_1].
    destruct Hwf as (Hcwd & _ & _). split; [done|]. split.
    + simpl. rewrite Hc. intros Habs.
      by destruct lit_workexperience_not_projects.
    + by intros f' [= <-].
Qed.

Lemma wellFormed_playEvents es p p' :
  playEvents es p = Some p' → wellFormed (state p) → wellFormed (state p').
Proof.
  revert p. induction es as [|e es IH]; intros p; simpl.
  - by intros [= <-].
  - destruct (enabled e p) eqn:Hen; [|done].
    intros Hplay Hwf. by apply (IH _ Hplay), wellFormed_handle.
Qed.

Lemma projectDetail_key k : k ∈ ProjectKeys → is_Some (projectDetail k).
Proof.
  unfold ProjectKeys, projectsMeta. simpl. rewrite !elem_of_cons, elem_of_nil.
  intros H. repeat (destruct H as [->|H]; [eexists; reflexivity|]). done.
Qed.

Lemma workRow_file f : f ∈ files → is_Some (workRow f).
Proof.
  unfold files. rewrite !elem_of_cons, elem_of_nil.
  intros H. repeat (destruct H as [->|H]; [eexists; reflexivity|]). done.
Qed.

Lemma truthy_Some v x : truthy v = Some x → v = Some x.
Proof. by destruct v as [[|c t]|]. Qed.

Lemma renderContent_wellFormed s :
  wellFormed s → ∃ panel, renderContent s = Some panel ∧ panel ≠ NoPanel.
Proof.
  intros (Hcwd & Hproj & Hwork). unfold renderContent.
  repeat case_bool_decide; try (by eexists).
  - destruct (truthy (selectedWorkFile s)) as [f|] eqn:Hf; [|by eexists].
    apply truthy_Some, Hwork, workRow_file in Hf as [row ->]. by eexists.
  - destruct (truthy (selectedProject s)) as [k|] eqn:Hk; [|by eexists].
    apply truthy_Some, Hproj, projectDetail_key in Hk as [d ->]; [|done].
    by eexists.
  - exfalso. revert Hcwd. unfold TABS. rewrite !elem_of_cons, elem_of_nil.
    tauto.
Qed.

(** A click on the tab of a section, or its choice in the selector, does
    to the navigation state what [cd] with that section does, and writes
    nothing to the scrollback. *)
Theorem tab_click_as_cd rnd t p :
  t ∈ TABS →
  nav (state (handle (TabClick t) p)) =
    nav (runCommand rnd (lit "cd " ++ t) (state p)) ∧
  handle (SelectChange t) p = handle (TabClick t) p ∧
  history (state (handle (TabClick t) p)) = history (state p).
Proof. intros Ht. by rewrite runCommand_cd_state. Qed.

Lemma tab_click_as_cd_witness :
  let p := {| state := {| cwd := lit "projects";
                          selectedProject := Some (lit "airbnb_analysis");
                          selectedWorkFile := None;
                          history := [] |};
              command := lit "ls"; isDarkTheme := false |} in
  nav (state (handle (TabClick (lit "skills")) p)) =
    nav (runCommand 0 (lit "cd skills") (state p)) ∧
  handle (SelectChange (lit "skills")) p = handle (TabClick (lit "skills")) p ∧
  history (state (handle (TabClick (lit "skills")) p)) = history (state p).
Proof.
  apply (tab_click_as_cd 0 (lit "skills")).
  apply (bool_decide_unpack _); vm_compute; exact I.
Defined.

(** Whatever changes the section shown empties both selections, but for
    the [+] button, which goes back to the terminal and leaves them. *)
Theorem section_change_clears e p :
  cwd (state (handle e p)) ≠ cwd (state p) → e ≠ PlusClick →
  selectedProject (state (handle e p)) = None ∧
  selectedWorkFile (state (handle e p)) = None.
Proof.
  intros Hcwd Hplus. destruct e as [v|key rnd|v|t| | |k|f]; simpl in *;
    try done.
  unfold onKeyDown in *. case_bool_decide; [|done]. simpl in *.
  by destruct (runCommand_step_cases rnd (command p) (state p)) as [[? _]|?].
Qed.

Lemma section_change_clears_witness :
  let p := {| state := {| cwd := lit "terminal";
                          selectedProject := Some (lit "airbnb_analysis");
                          selectedWorkFile := Some (lit "capgemini.sql");
                          history := [] |};
              command := lit "telnet me"; isDarkTheme := true |} in
  selectedProject (state (handle (KeyDown (lit "Enter") 0) p)) = None ∧
  selectedWorkFile (state (handle (KeyDown (lit "Enter") 0) p)) = None.
Proof.
  apply (section_change_clears (KeyDown (lit "Enter") 0)).
  - vm_compute. discriminate.
  - discriminate.
Defined.

(** After any run of events from the first page, the panel is built
    without an error and is one of the six sections' panels: what is
    selected is always something the panel shown can look up. *)
Theorem render_never_fails es p :
  playEvents es initialPage = Some p →
  wellFormed (state p) ∧
  ∃ panel, renderContent (state p) = Some panel ∧ panel ≠ NoPanel.
Proof.
  intros Hplay.
  assert (wellFormed (state p)) as Hwf
    by apply (wellFormed_playEvents es initialPage p Hplay wellFormed_initial).
  split; [done|]. by apply renderContent_wellFormed.
Qed.

Lemma render_never_fails_witness :
  ∃ p, playEvents [InputChange (lit "view toString"); KeyDown (lit "Enter") 0;
                   TabClick (lit "projects");
                   ProjectClick (lit "movie_recommender")] initialPage = Some p ∧
       wellFormed (state p) ∧
       ∃ panel, renderContent (state p) = Some panel ∧ panel ≠ NoPanel.
Proof.
  eexists. split; [reflexivity|].
  eapply (render_never_fails
            [InputChange (lit "view toString"); KeyDown (lit "Enter") 0;
             TabClick (lit "projects"); ProjectClick (lit "movie_recommender")]).
  reflexivity.
Defined.

(** The input box is there in the terminal section only, and to leave
    that section for the projects empties the selection: so as long as
    no project button is clicked, no project is shown, whatever is typed,
    [view] with a key included. *)
Theorem view_never_shows_a_project es p :
  playEvents es initialPage = Some p →
  forallb (λ e, negb (isProjectClick e)) es = true →
  (cwd (state p) = lit "projects" → selectedProject (state p) = None) ∧
  ∀ buttons d, renderContent (state p) ≠ Some (ProjectsPanel buttons (Some d)).
Proof.
  intros Hplay Hes.
  assert (cwd (state p) = lit "projects" → selectedProject (state p) = None)
    as Hhid.
  { assert (cwd (state initialPage) = lit "projects" →
            selectedProject (state initialPage) = None) as H0 by done.
    revert Hplay Hes H0. generalize initialPage as p0. revert p.
    induction es as [|e es IH]; intros p p0; simpl.
    - by intros [= <-].
    - destruct (enabled e p0) eqn:Hen; [|done].
      intros Hplay [He Hes]%andb_true_iff H0.
      apply (IH p (handle e p0) Hplay Hes).
      destruct e as [v|key rnd|v|t| | |k|f]; simpl in *; try done.
      apply bool_decide_eq_true_1 in Hen. unfold onKeyDown.
      case_bool_decide; [|done]. simpl.
      destruct (runCommand_step_cases rnd (command p0) (state p0))
        as [[Hc _]|[Hp _]]; [|done].
      rewrite Hc, Hen. intros Habs. by destruct lit_terminal_not_projects. }
  split; [done|]. intros buttons d. unfold renderContent.
  repeat case_bool_decide; try done.
  - by destruct (truthy (selectedWorkFile (state p))) as [f|];
      [destruct (workRow f)|].
  - by rewrite Hhid.
Qed.

Lemma view_never_shows_a_project_witness :
  ∃ p, playEvents [InputChange (lit "view airbnb_analysis");
                   KeyDown (lit "Enter") 0;
                   SelectChange (lit "projects")] initialPage = Some p ∧
       (cwd (state p) = lit "projects" → selectedProject (state p) = None) ∧
       ∀ buttons d,
         renderContent (state p) ≠ Some (ProjectsPanel buttons (Some d)).
Proof.
  eexists. split; [reflexivity|].
  eapply (view_never_shows_a_project
            [InputChange (lit "view airbnb_analysis"); KeyDown (lit "Enter") 0;
             SelectChange (lit "projects")]); reflexivity.
Defined.

(** Only the Enter key writes to the scrollback, one entry each time,
    which records what the input box held; clicks and the other keys
    leave it as it is. *)
Theorem scrollback_counts_submissions es p p' :
  playEvents es p = Some p' →
  history (state p) `prefix_of` history (state p') ∧
  length (history (state p')) =
    length (history (state p)) + length (List.filter isSubmit es).
Proof.
  revert p. induction es as [|e es IH]; intros p; simpl.
  - intros [= <-]. split; [done|lia].
  - destruct (enabled e p) eqn:Hen; [|done].
    intros [Hpre Hlen]%IH. destruct (isSubmit e) eqn:He.
    + destruct (handle_history_submit e p He) as (out & Hh & _).
      rewrite Hh in Hpre, Hlen. split.
      * etrans; [|exact Hpre]. by apply prefix_app_r.
      * rewrite Hlen, length_app. simpl. lia.
    + rewrite (handle_history_other e p He) in Hpre, Hlen. done.
Qed.

Lemma scrollback_counts_submissions_witness :
  ∃ p', playEvents [InputChange (lit "help"); KeyDown (lit "a") 0;
                    KeyDown (lit "Enter") 0; ThemeClick;
                    TabClick (lit "skills")] initialPage = Some p' ∧
        history (state initialPage) `prefix_of` history (state p') ∧
        length (history (state p')) = 1.
Proof.
  eexists. split; [reflexivity|].
  eapply (scrollback_counts_submissions
            [InputChange (lit "help"); KeyDown (lit "a") 0;
             KeyDown (lit "Enter") 0; ThemeClick; TabClick (lit "skills")]
            initialPage).
  reflexivity.
Defined.

(** In the terminal section every entry of the scrollback is shown with
    the line as typed and with its output, if it has one: no output is
    held back. *)
Theorem terminal_shows_every_output es p :
  playEvents es initialPage = Some p →
  cwd (state p) = lit "terminal" →
  renderContent (state p) =
    Some (TerminalPanel (map (λ h, (cmd h, output h)) (history (state p)))).
Proof.
  intros Hplay Hterm.
  assert (Forall (λ h, truthy (output h) = output h) (history (state p)))
    as Hall.
  { assert (Forall (λ h, truthy (output h) = output h)
              (history (state initialPage))) as H0 by constructor.
    revert Hplay H0. generalize initialPage as p0. revert p Hterm.
    induction es as [|e es IH]; intros p Hterm p0; simpl.
    - by intros [= <-].
    - destruct (enabled e p0) eqn:Hen; [|done].
      intros Hplay H0. apply (IH p Hterm (handle e p0) Hplay).
      destruct (isSubmit e) eqn:He.
      + destruct (handle_history_submit e p0 He) as (out & -> & Hout).
        apply Forall_app. split; [done|]. by constructor.
      + by rewrite (handle_history_other e p0 He). }
  unfold renderContent. rewrite bool_decide_eq_true_2 by done.
  do 2 f_equal. apply map_ext_Forall.
  eapply Forall_impl; [exact Hall|].
  intros h Hh. unfold historyBlock. by rewrite Hh.
Qed.

Lemma terminal_shows_every_output_witness :
  ∃ p, playEvents [InputChange []; KeyDown (lit "Enter") 0;
                   InputChange (lit "ls"); KeyDown (lit "Enter") 0]
         initialPage = Some p ∧
       renderContent (state p) =
         Some (TerminalPanel
                 [([], Some (lit "zsh: command not found: "));
                  (lit "ls", None)]).
Proof.
  eexists. split; [reflexivity|].
  apply (terminal_shows_every_output
           [InputChange []; KeyDown (lit "Enter") 0;
            InputChange (lit "ls"); KeyDown (lit "Enter") 0]);
    reflexivity.
Defined.

End Events.
